(** * pypdfdeck: the input-timing engine and the interruptible rasterizer

    A shallow embedding of [pdfpc.py] (classes [Repeater] and [Cursor]) and of
    [rasterizer.py] (function [_rasterize_worker], class [ThreadedRasterizer]),
    followed by the properties of the presentation viewer's specification.

    Python's [float] is IEEE 754 binary64.  The timing code is written once
    over an interface of the arithmetic it uses ([PyFloat]) and read at two
    instances: [Binary64], the kernel's primitive binary64 floats, which is
    what the interpreter computes, and [Exact], the rationals, which is the
    arithmetic the specification's formulas are written in. *)

From Stdlib Require Import ZArith QArith Qround Floats Bool List Lia Lqa.
From stdpp Require Import base option list.
Import ListNotations.

Set Warnings "-inexact-float".
Local Open Scope Z_scope.

(** ** The arithmetic of Python's [float] *)

Class PyFloat : Type := {
  num : Type;
  fadd : num -> num -> num;           (* a + b *)
  fsub : num -> num -> num;           (* a - b *)
  fdiv : num -> num -> num;           (* a / b, for b <> 0 *)
  flt : num -> num -> bool;           (* a < b *)
  fle : num -> num -> bool;           (* a <= b *)
  of_int : Z -> num;                  (* float(n) *)
  lit_0_4 : num;                      (* the literal 0.4 *)
  lit_0_1 : num;                      (* the literal 0.1 *)
}.

(** [a > b] and [a >= b] are the mirrored comparisons. *)
Definition fgt {F : PyFloat} (a b : num) : bool := flt b a.
Definition fge {F : PyFloat} (a b : num) : bool := fle b a.

(** [float(n)] for a Python integer: the nearest binary64 value. *)
Definition float_of_Z (z : Z) : float :=
  SF2Prim (binary_normalize prec emax z 0 false).

Definition Binary64 : PyFloat := {|
  num := float;
  fadd := PrimFloat.add;
  fsub := PrimFloat.sub;
  fdiv := PrimFloat.div;
  flt := PrimFloat.ltb;
  fle := PrimFloat.leb;
  of_int := float_of_Z;
  lit_0_4 := 0x1.999999999999ap-2%float;
  lit_0_1 := 0x1.999999999999ap-4%float;
|}.

Definition Qltb (a b : Q) : bool := negb (Qle_bool b a).

Definition Exact : PyFloat := {|
  num := Q;
  fadd := Qplus;
  fsub := Qminus;
  fdiv := Qdiv;
  flt := Qltb;
  fle := Qle_bool;
  of_int := inject_Z;
  lit_0_4 := 2 # 5;
  lit_0_1 := 1 # 10;
|}.

(** ** pdfpc.py: [Repeater] *)

Module Repeater.

Inductive key_state : Set := UP | HOLD | FIRE.

Section WithFloat.
Context {F : PyFloat}.

Definition REPEAT_TRIGGER : num := lit_0_4.
Definition REPEAT_INTERVAL : num := lit_0_1.

Record t : Type := mk { state : key_state; stopwatch : num }.

(** [Repeater.__init__] *)
Definition init : t := {| state := UP; stopwatch := of_int (-1000000000000) |}.

(** [Repeater._countdown]: the [while] loop, with [fires] as its accumulator.
    [fuel] bounds the number of iterations; [None] means the bound was
    reached with the loop condition still true. *)
Fixpoint countdown_loop (fuel : nat) (fires : Z) (sw : num) : option (Z * num) :=
  if fgt sw REPEAT_INTERVAL then
    match fuel with
    | O => None
    | S fuel' => countdown_loop fuel' (fires + 1) (fsub sw REPEAT_INTERVAL)
    end
  else Some (fires, sw).

Definition _countdown (fuel : nat) (self : t) : option (Z * t) :=
  '(fires, sw) ← countdown_loop fuel 0 (stopwatch self);
  Some (fires, {| state := state self; stopwatch := sw |}).

(** [Repeater.tick]: the number of repeats fired and the state left behind. *)
Definition tick (fuel : nat) (dt : num) (is_down : bool) (self : t) : option (Z * t) :=
  if negb is_down then
    Some (0, {| state := UP; stopwatch := stopwatch self |})
  else
    match state self with
    | UP => Some (1, {| state := HOLD; stopwatch := dt |})
    | HOLD =>
        let sw := fadd (stopwatch self) dt in
        if flt sw REPEAT_TRIGGER then
          Some (0, {| state := HOLD; stopwatch := sw |})
        else
          '(n, self') ← _countdown fuel {| state := FIRE; stopwatch := fsub sw REPEAT_TRIGGER |};
          Some (1 + n, self')
    | FIRE =>
        _countdown fuel {| state := FIRE; stopwatch := fadd (stopwatch self) dt |}
    end.

(** A sequence of [tick] calls on one timer, each input [(dt, is_down)]: the
    fire counts returned, in order, and the final state. *)
Fixpoint ticks (fuel : nat) (inputs : list (num * bool)) (self : t) : option (list Z * t) :=
  match inputs with
  | [] => Some ([], self)
  | (dt, is_down) :: rest =>
      '(fires, self') ← tick fuel dt is_down self;
      '(counts, final) ← ticks fuel rest self';
      Some (fires :: counts, final)
  end.


End WithFloat.
Arguments t {_}.
End Repeater.

(** ** pdfpc.py: [Cursor] *)

Module Cursor.
Section WithFloat.
Context {F : PyFloat}.

Record t : Type := mk {
  rev : Repeater.t;
  fwd : Repeater.t;
  cursor : Z;
  nslides : Z;
}.

(** [Cursor.__init__] *)
Definition init (nslides : Z) : t :=
  {| rev := Repeater.init; fwd := Repeater.init; cursor := 0; nslides := nslides |}.

(** [Cursor.tick]: whether the cursor changed, and the state left behind. *)
Definition tick (fuel : nat) (dt : num) (reverse forward : bool) (self : t)
  : option (bool * t) :=
  let old_value := cursor self in
  if reverse && forward then Some (false, self)
  else
    '(back, rev') ← Repeater.tick fuel dt reverse (rev self);
    let cur := cursor self - back in
    '(ahead, fwd') ← Repeater.tick fuel dt forward (fwd self);
    let cur := cur + ahead in
    let cur := Z.min cur (nslides self - 1) in
    let cur := Z.max cur 0 in
    Some (negb (cur =? old_value),
          {| rev := rev'; fwd := fwd'; cursor := cur; nslides := nslides self |}).

(** The cursor is a valid page index: it lies in [[0, nslides - 1]]. *)
Definition in_bounds (self : t) : Prop := 0 <= cursor self <= nslides self - 1.

(** One sample of the input layer: [(dt, reverse, forward)]. *)
Definition sample : Type := num * bool * bool.

(** A sequence of [tick] calls on one controller: the values returned, in
    order, and the final state. *)
Fixpoint ticks (fuel : nat) (inputs : list sample) (self : t) : option (list bool * t) :=
  match inputs with
  | [] => Some ([], self)
  | (dt, reverse, forward) :: rest =>
      '(changed, self') ← tick fuel dt reverse forward self;
      '(flags, final) ← ticks fuel rest self';
      Some (changed :: flags, final)
  end.

End WithFloat.
Arguments t {_}.
Arguments sample {_}.
End Cursor.


(** ** Python values used by rasterizer.py *)

(** The exceptions the modelled code can raise. *)
Inductive exn : Set := TypeError | ZeroDivisionError | IndexError | AttributeError.

(** How a piece of the worker's code ends: it falls through with a value,
    executes [return], or raises. *)
Inductive outcome (A : Type) : Type :=
  | Normal (a : A)
  | Returned
  | Raised (e : exn).
Arguments Normal {A} a.
Arguments Returned {A}.
Arguments Raised {A} e.

#[export] Instance outcome_bind : MBind outcome := fun A B f m =>
  match m with
  | Normal a => f a
  | Returned => Returned
  | Raised e => Raised e
  end.

(** [l[i]] resolves a Python index: negative indices count from the end, and
    an index outside [-len(l), len(l)) raises IndexError ([None] here). *)
Definition py_index {A : Type} (l : list A) (i : Z) : option nat :=
  let n := Z.of_nat (length l) in
  if (0 <=? i) && (i <? n) then Some (Z.to_nat i)
  else if (- n <=? i) && (i <? 0) then Some (Z.to_nat (n + i))
  else None.

(** [l[i]] as an expression. *)
Definition getitem {A : Type} (l : list A) (i : Z) : option A :=
  k ← py_index l i; l !! k.

(** [l[i] = x], on the list as a value. *)
Definition setitem {A : Type} (l : list A) (i : Z) (x : A) : option (list A) :=
  k ← py_index l i; Some (<[k := x]> l).

(** The integers [first, first + 1, ..., last], empty when [last < first]. *)
Definition page_range (first last : Z) : list Z :=
  map (fun k => first + Z.of_nat k) (seq 0 (Z.to_nat (last + 1 - first))).

(** ** rasterizer.py *)

Module Rasterizer.

(** What is passed as [size=] to the decoder: [(None, height)] or
    [(width, None)]. *)
Definition image_size : Type := option Z * option Z.

(** A decoded page, by what it shows: page [number] of the document
    rendered at [size], or the result of [src.point(lut)]. *)
Inductive Image : Type :=
  | Page (number : Z) (size : image_size)
  | Point (lut : list Z) (src : Image).

(** An item of the size queue: a [(width, height)] tuple, or [None], the
    stop sentinel. *)
Definition item : Type := option (Z * Z).

Section WithFloat.
Context {F : PyFloat}.

(** The document behind [pdfpath], as far as the worker reads it: its page
    count and the aspect ratio [_parse_aspect_from_pdfinfo] yields. *)
Record document : Type := { doc_pages : Z; doc_aspect : num }.

(** [_winsize2rasterargs].  Unpacking [None] raises TypeError, and a zero
    height raises ZeroDivisionError. *)
Definition _winsize2rasterargs (window_size : item) (aspect : num) : outcome image_size :=
  match window_size with
  | None => Raised TypeError
  | Some (width, height) =>
      if height =? 0 then Raised ZeroDivisionError
      else
        let window_aspect := fdiv (of_int width) (of_int height) in
        if fge window_aspect aspect then Normal (None, Some height)
        else Normal (Some width, None)
  end.

(** Modelled from the spec: [pdf2image.convert_from_path], the external batch
    decoder the worker calls ([decode_page(path, page_index_range,
    target_size)], images in request order).  As in pdf2image, [first_page]
    below 1 is read as 1, [last_page] past the end as the last page, and an
    empty range gives no image. *)
Definition convert_from_path (doc : document) (size : image_size)
    (first_page last_page : Z) : list Image :=
  map (fun p => Page p size)
      (page_range (Z.max first_page 1) (Z.min last_page (doc_pages doc))).

(** The worker's local variables. *)
Record worker : Type := {
  page : Z;
  images : list (option Image);
  window_size : item;
  image_size_of : image_size;
}.

Definition CHUNK : Z := 32.

(** One call of [callback(images2)].  [pub_window_size] is the worker's
    [window_size] at the call; the callback does not receive it, it is
    recorded to state properties of the run. *)
Record published : Type := { pub_images : list (option Image); pub_window_size : item }.

(** Lines 40-44: the locals before the main loop; [first] is what the
    blocking [size_queue.get()] returned. *)
Definition start (pagelimit : Z) (doc : document) (first : item) : outcome worker :=
  let page := 1 in
  let images := replicate (Z.to_nat pagelimit) None in
  let window_size := first in
  image_size ← _winsize2rasterargs window_size (doc_aspect doc);
  Normal {| page := page; images := images; window_size := window_size;
            image_size_of := image_size |}.

(** Lines 50-58: the inner [while True] around [size_queue.get(timeout=0.1)].
    [items] are the items the queue hands out before a [get] times out with
    [queue.Empty]. *)
Fixpoint drain (aspect : num) (items : list item) (self : worker) : outcome worker :=
  match items with
  | [] => Normal self
  | window_size :: rest =>
      match window_size with
      | None => Returned
      | Some _ =>
          image_size ← _winsize2rasterargs window_size aspect;
          drain aspect rest
            {| page := 1; images := images self; window_size := window_size;
               image_size_of := image_size |}
      end
  end.

(** Lines 78-80: [for i, img in enumerate(chunk)]. *)
Fixpoint store_chunk (chunk : list Image) (self : worker) : outcome worker :=
  match chunk with
  | [] => Normal self
  | img :: rest =>
      match setitem (images self) (page self - 1) (Some img) with
      | None => Raised IndexError
      | Some images' =>
          store_chunk rest
            {| page := page self + 1; images := images';
               window_size := window_size self; image_size_of := image_size_of self |}
      end
  end.

(** Lines 46-80: one pass of the main loop: the callbacks it makes and how
    it ends. *)
Definition iteration (pagelimit : Z) (doc : document) (items : list item) (self : worker)
  : list published * outcome worker :=
  match drain (doc_aspect doc) items self with
  | Normal self =>
      if page self =? pagelimit + 1 then
        match getitem (images self) (-1) with
        | None => ([], Raised IndexError)
        | Some (Some _) =>
            let images2 := images self in
            ([ {| pub_images := images2; pub_window_size := window_size self |} ],
             Normal {| page := page self; images := replicate (Z.to_nat pagelimit) None;
                       window_size := window_size self;
                       image_size_of := image_size_of self |})
        | Some None => ([], Normal self)
        end
      else
        let chunk := convert_from_path doc (image_size_of self)
                       (page self) (page self + CHUNK - 1) in
        ([], store_chunk chunk self)
  | Returned => ([], Returned)
  | Raised e => ([], Raised e)
  end.

(** The main loop over a schedule: the [k]-th entry lists the items the
    [k]-th drain receives.  [Normal] means the worker is still looping when
    the schedule ends. *)
Fixpoint loop (pagelimit : Z) (doc : document) (schedule : list (list item)) (self : worker)
  : list published * outcome worker :=
  match schedule with
  | [] => ([], Normal self)
  | items :: rest =>
      match iteration pagelimit doc items self with
      | (calls, Normal self') =>
          let '(calls', final) := loop pagelimit doc rest self' in
          (calls ++ calls', final)
      | (calls, final) => (calls, final)
      end
  end.

(** [_rasterize_worker(pdfpath, pagelimit, size_queue, callback)]. *)
Definition _rasterize_worker (pagelimit : Z) (doc : document) (first : item)
    (schedule : list (list item)) : list published * outcome worker :=
  match start pagelimit doc first with
  | Normal self => loop pagelimit doc schedule self
  | Returned => ([], Returned)
  | Raised e => ([], Raised e)
  end.

End WithFloat.
End Rasterizer.

(** ** rasterizer.py: [ThreadedRasterizer] *)

Module ThreadedRasterizer.
Import Rasterizer.

(** The fields [get] and [images_done] share under the lock; [None] is
    Python's [None]. *)
Record t : Type := { images : option (list (option Image)); black : option Image }.

(** [ThreadedRasterizer.__init__], the two fields. *)
Definition init : t := {| images := None; black := None |}.

(** [ThreadedRasterizer.images_done]: the state left behind and the
    exception raised, if any.  [images[0]] raises IndexError on an empty
    list, and [None.point] raises AttributeError. *)
Definition images_done (images2 : list (option Image)) (self : t) : t * option exn :=
  let self := {| images := Some images2; black := black self |} in
  let lut := replicate (256 * 3) 0 in
  match getitem images2 0 with
  | None => (self, Some IndexError)
  | Some None => (self, Some AttributeError)
  | Some (Some first) =>
      ({| images := images self; black := Some (Point lut first) |}, None)
  end.

(** [ThreadedRasterizer.get]; the result [None] is Python's [None]. *)
Definition get (index : Z) (self : t) : option Image :=
  match images self with
  | None => None
  | Some imgs =>
      if (0 <=? index) && (index <? Z.of_nat (length imgs)) then
        mjoin (getitem imgs index)
      else black self
  end.

(** [ThreadedRasterizer.push_resize]: [self.queue.put((width, height))], on
    the queue's content, oldest item first. *)
Definition push_resize (width height : Z) (queue : list item) : list item :=
  queue ++ [Some (width, height)].

(** [ThreadedRasterizer.shutdown], its [put]: the stop sentinel goes behind
    what is queued.  The [join] that follows ends when the worker does. *)
Definition shutdown (queue : list item) : list item := queue ++ [None].

End ThreadedRasterizer.

(** ** pdfpc.py: [bestmode] and the first [rasterize_worker] *)

Module Pdfpc.
Import Rasterizer.

(** A display mode, by the fields [bestmode] reads. *)
Record mode : Type := { mode_width : Z; mode_height : Z }.

(** Python's [max(iterable, key=...)] after its first element: a later
    element replaces the best one only when its key is strictly greater. *)
Fixpoint max_by {A : Type} (key : A -> Z) (best : A) (rest : list A) : A :=
  match rest with
  | [] => best
  | x :: rest => max_by key (if key best <? key x then x else best) rest
  end.

(** [bestmode(screen)], on the list [screen.get_modes()] returns; [None] is
    the ValueError [max] raises on an empty list. *)
Definition bestmode (modes : list mode) : option mode :=
  match modes with
  | [] => None
  | m :: rest => Some (max_by mode_height m rest)
  end.

(** What can end [rasterize_worker]: an exception of the Python values
    above, or the failure of its [assert]. *)
Inductive error : Set := Raise (e : exn) | AssertionError.

(** [rasterize_worker] has no [return]: it is running, or it has failed. *)
Inductive result (A : Type) : Type :=
  | Running (a : A)
  | Failed (e : error).
Arguments Running {A} a.
Arguments Failed {A} e.

Section WithFloat.
Context {F : PyFloat}.

(** [winsize2rasterargs]: the same body as [rasterizer._winsize2rasterargs]. *)
Definition winsize2rasterargs (window_size : item) (aspect : num) : result image_size :=
  match window_size with
  | None => Failed (Raise TypeError)
  | Some (width, height) =>
      if height =? 0 then Failed (Raise ZeroDivisionError)
      else
        let window_aspect := fdiv (of_int width) (of_int height) in
        if fge window_aspect aspect then Running (None, Some height)
        else Running (Some width, None)
  end.

(** Lines 132-135: the locals before the main loop. *)
Definition start (pagelimit : Z) (doc : document) (first : item) : result worker :=
  match winsize2rasterargs first (doc_aspect doc) with
  | Running image_size =>
      Running {| page := 1; images := replicate (Z.to_nat pagelimit) None;
                 window_size := first; image_size_of := image_size |}
  | Failed e => Failed e
  end.

(** Lines 137-141: [while not size_queue.empty()]; every item is taken as a
    size, there is no stop sentinel. *)
Fixpoint drain (aspect : num) (items : list item) (self : worker) : result worker :=
  match items with
  | [] => Running self
  | window_size :: rest =>
      match winsize2rasterargs window_size aspect with
      | Running image_size =>
          drain aspect rest
            {| page := 1; images := images self; window_size := window_size;
               image_size_of := image_size |}
      | Failed e => Failed e
      end
  end.

(** Lines 136-166: one pass of the main loop.  One page is decoded per
    pass; the images are the pages [pyglet.image.load] reads back from the
    paths, and the callback gets the window size with the images. *)
Definition iteration (pagelimit : Z) (doc : document) (items : list item) (self : worker)
  : list published * result worker :=
  match drain (doc_aspect doc) items self with
  | Running self =>
      if page self =? pagelimit + 1 then
        match getitem (images self) (-1) with
        | None => ([], Failed (Raise IndexError))
        | Some (Some _) =>
            let images2 := images self in
            ([ {| pub_images := images2; pub_window_size := window_size self |} ],
             Running {| page := page self; images := replicate (Z.to_nat pagelimit) None;
                        window_size := window_size self;
                        image_size_of := image_size_of self |})
        | Some None => ([], Running self)
        end
      else
        let paths := convert_from_path doc (image_size_of self) (page self) (page self) in
        if (length paths =? 1)%nat then
          match getitem paths 0 with
          | None => ([], Failed (Raise IndexError))
          | Some img =>
              match setitem (images self) (page self - 1) (Some img) with
              | None => ([], Failed (Raise IndexError))
              | Some images' =>
                  ([], Running {| page := page self + 1; images := images';
                                  window_size := window_size self;
                                  image_size_of := image_size_of self |})
              end
          end
        else ([], Failed AssertionError)
  | Failed e => ([], Failed e)
  end.

Fixpoint loop (pagelimit : Z) (doc : document) (schedule : list (list item)) (self : worker)
  : list published * result worker :=
  match schedule with
  | [] => ([], Running self)
  | items :: rest =>
      match iteration pagelimit doc items self with
      | (calls, Running self') =>
          let '(calls', final) := loop pagelimit doc rest self' in
          (calls ++ calls', final)
      | (calls, final) => (calls, final)
      end
  end.

(** [rasterize_worker(pdfpath, pagelimit, size_queue, callback)]. *)
Definition rasterize_worker (pagelimit : Z) (doc : document) (first : item)
    (schedule : list (list item)) : list published * result worker :=
  match start pagelimit doc first with
  | Running self => loop pagelimit doc schedule self
  | Failed e => ([], Failed e)
  end.

End WithFloat.
End Pdfpc.

(** ** Vocabulary of the properties *)


(** The number of 0.1 s steps [Repeater._countdown] takes on a stopwatch
    reading [r], in exact arithmetic: the whole multiples of 0.1 strictly
    below [r], that is [ceil(r / 0.1) - 1], and none for [r <= 0.1]. *)
Definition intervals (r : Q) : Z := Z.max 0 (Qceiling (r / (1 # 10)) - 1).

(** The end-to-end scenario of the specification: five slides, the cursor
    on slide 2, both timers released. *)
Definition scenario_start {F : PyFloat} : Cursor.t :=
  {| Cursor.rev := Repeater.init; Cursor.fwd := Repeater.init;
     Cursor.cursor := 2; Cursor.nslides := 5 |}.

(** One 0.05 s sample with forward held and reverse released: the literal
    0.05 in binary64, and 1/20 in exact arithmetic. *)
Definition forward_0_05_binary64 : Cursor.sample (F := Binary64) :=
  (0x1.999999999999ap-5%float, false, true).
Definition forward_0_05_exact : Cursor.sample (F := Exact) := (1 # 20, false, true).

(** The two states the binary64 controller alternates between once it sits
    on the last slide with forward held: the forward timer repeats with a
    stopwatch just below 0.1 or just below 0.05. *)
Definition upper : Cursor.t (F := Binary64) :=
  {| Cursor.rev := Repeater.mk (F := Binary64) Repeater.UP (-0x1.d1a94a2p+39)%float;
     Cursor.fwd := Repeater.mk (F := Binary64) Repeater.FIRE 0x1.9999999999995p-4%float;
     Cursor.cursor := 4; Cursor.nslides := 5 |}.
Definition lower : Cursor.t (F := Binary64) :=
  {| Cursor.rev := Repeater.mk (F := Binary64) Repeater.UP (-0x1.d1a94a2p+39)%float;
     Cursor.fwd := Repeater.mk (F := Binary64) Repeater.FIRE 0x1.9999999999990p-5%float;
     Cursor.cursor := 4; Cursor.nslides := 5 |}.

(** The states of the exact controller on the last slide of five with the
    forward timer repeating on a stopwatch of at most 0.1. *)
Definition at_ceiling (self : Cursor.t (F := Exact)) : Prop :=
  Cursor.cursor self = 4 /\ Cursor.nslides self = 5
  /\ Repeater.state (Cursor.fwd self) = Repeater.FIRE
  /\ (Repeater.stopwatch (Cursor.fwd self) <= 1 # 10)%Q.

(** The image set of a finished render cycle: pages 1 to [pagelimit], each
    rendered at [size]. *)
Definition full_set (pagelimit : Z) (size : Rasterizer.image_size)
  : list (option Rasterizer.Image) :=
  map (fun p => Some (Rasterizer.Page p size)) (page_range 1 pagelimit).

(** The pages before [page] are stored, each rendered at the current size. *)
Definition rendered_prefix (self : Rasterizer.worker) : Prop :=
  forall i : nat,
    Z.of_nat i < Rasterizer.page self - 1 ->
    Rasterizer.images self !! i
    = Some (Some (Rasterizer.Page (Z.of_nat i + 1) (Rasterizer.image_size_of self))).

(** The worker has published and holds a fresh list of placeholders. *)
Definition idle (pagelimit : Z) (self : Rasterizer.worker) : Prop :=
  Rasterizer.page self = pagelimit + 1
  /\ Rasterizer.images self = replicate (Z.to_nat pagelimit) None.

(** What every pass of the worker's main loop keeps. *)
Definition worker_inv {F : PyFloat} (pagelimit : Z) (aspect : num)
    (self : Rasterizer.worker) : Prop :=
  length (Rasterizer.images self) = Z.to_nat pagelimit
  /\ 1 <= Rasterizer.page self
  /\ Rasterizer._winsize2rasterargs (Rasterizer.window_size self) aspect
     = Normal (Rasterizer.image_size_of self)
  /\ (rendered_prefix self \/ idle pagelimit self).

(** A queue item that is a size with a non-zero height. *)
Definition valid_size (it : Rasterizer.item) : Prop :=
  exists w h : Z, it = Some (w, h) /\ h <> 0.

(** The number of decoder calls a document of [pages] pages takes. *)
Definition chunks (pages : Z) : Z := (pages + Rasterizer.CHUNK - 1) / Rasterizer.CHUNK.

(** A published image set is complete: it is the full set of [pagelimit]
    pages (one at least) at the size derived from the window size current at
    the call. *)
Definition complete_set {F : PyFloat} (pagelimit : Z) (aspect : num)
    (call : Rasterizer.published) : Prop :=
  1 <= pagelimit
  /\ exists size : Rasterizer.image_size,
       Rasterizer._winsize2rasterargs (Rasterizer.pub_window_size call) aspect = Normal size
       /\ Rasterizer.pub_images call = full_set pagelimit size.

(** A document of [pages] A4 pages (595 x 842 pt), in binary64 arithmetic. *)
Definition a4_document (pages : Z) : Rasterizer.document (F := Binary64) :=
  @Rasterizer.Build_document Binary64 pages (595 / 842)%float.

(** * Properties *)

(** ** More fuel never changes a result *)

Section FuelFacts.
Context {F : PyFloat}.

Lemma countdown_loop_fuel_mono (fuel fuel' : nat) (fires : Z) (sw : num) (r : Z * num) :
  (fuel <= fuel')%nat ->
  Repeater.countdown_loop fuel fires sw = Some r ->
  Repeater.countdown_loop fuel' fires sw = Some r.
Proof.
  revert fuel' fires sw.
  induction fuel as [|fuel IH]; intros fuel' fires sw Hle Hrun.
  - destruct fuel'; simpl in *; destruct (fgt sw Repeater.REPEAT_INTERVAL); congruence.
  - destruct fuel' as [|fuel']; [lia|].
    simpl in *. destruct (fgt sw Repeater.REPEAT_INTERVAL); [|exact Hrun].
    apply IH; [lia | exact Hrun].
Qed.

Lemma _countdown_fuel_mono (fuel fuel' : nat) (self : Repeater.t) (r : Z * Repeater.t) :
  (fuel <= fuel')%nat ->
  Repeater._countdown fuel self = Some r ->
  Repeater._countdown fuel' self = Some r.
Proof.
  unfold Repeater._countdown. intros Hle Hrun.
  destruct (Repeater.countdown_loop fuel 0 (Repeater.stopwatch self)) as [p|] eqn:E;
    [|discriminate].
  rewrite (countdown_loop_fuel_mono fuel fuel' _ _ p Hle E). exact Hrun.
Qed.

Lemma Repeater_tick_fuel_mono (fuel fuel' : nat) (dt : num) (is_down : bool)
    (self : Repeater.t) (r : Z * Repeater.t) :
  (fuel <= fuel')%nat ->
  Repeater.tick fuel dt is_down self = Some r ->
  Repeater.tick fuel' dt is_down self = Some r.
Proof.
  unfold Repeater.tick. intros Hle Hrun.
  destruct (negb is_down); [exact Hrun|].
  destruct (Repeater.state self); [exact Hrun| |].
  - destruct (flt _ _); [exact Hrun|].
    destruct (Repeater._countdown fuel _) as [p|] eqn:E; [|discriminate].
    rewrite (_countdown_fuel_mono fuel fuel' _ p Hle E). exact Hrun.
  - eapply _countdown_fuel_mono; eassumption.
Qed.

Lemma Cursor_tick_fuel_mono (fuel fuel' : nat) (dt : num) (reverse forward : bool)
    (self : Cursor.t) (r : bool * Cursor.t) :
  (fuel <= fuel')%nat ->
  Cursor.tick fuel dt reverse forward self = Some r ->
  Cursor.tick fuel' dt reverse forward self = Some r.
Proof.
  unfold Cursor.tick. intros Hle Hrun.
  destruct (reverse && forward); [exact Hrun|].
  destruct (Repeater.tick fuel dt reverse _) as [p|] eqn:E1; [|discriminate].
  rewrite (Repeater_tick_fuel_mono fuel fuel' _ _ _ p Hle E1).
  destruct p as [back rev']. simpl in *.
  destruct (Repeater.tick fuel dt forward _) as [q|] eqn:E2; [|discriminate].
  rewrite (Repeater_tick_fuel_mono fuel fuel' _ _ _ q Hle E2). exact Hrun.
Qed.

Lemma Cursor_ticks_fuel_mono (fuel fuel' : nat) (inputs : list Cursor.sample)
    (self : Cursor.t) (r : list bool * Cursor.t) :
  (fuel <= fuel')%nat ->
  Cursor.ticks fuel inputs self = Some r ->
  Cursor.ticks fuel' inputs self = Some r.
Proof.
  intros Hle. revert self r.
  induction inputs as [|[[dt reverse] forward] rest IH]; intros self r Hrun.
  - exact Hrun.
  - simpl in *.
    destruct (Cursor.tick fuel dt reverse forward self) as [p|] eqn:E1; [|discriminate].
    rewrite (Cursor_tick_fuel_mono fuel fuel' _ _ _ _ p Hle E1).
    destruct p as [changed self']. simpl in *.
    destruct (Cursor.ticks fuel rest self') as [q|] eqn:E2; [|discriminate].
    rewrite (IH _ q E2). exact Hrun.
Qed.

End FuelFacts.

(** ** [Cursor]: both inputs held, and the bounds of the cursor *)

Section CursorFacts.
Context {F : PyFloat}.

(** C6.  When [reverse] and [forward] are both held, [Cursor.tick] returns
    [False] and leaves the whole controller as it was: the cursor, and both
    timers with their states and stopwatches.  No timer is ticked: the result
    needs no loop iteration at all ([fuel] is arbitrary, also 0). *)
Theorem Cursor_tick_both_held (fuel : nat) (dt : num) (self : Cursor.t) :
  Cursor.tick fuel dt true true self = Some (false, self).
Proof. reflexivity. Qed.

Lemma Cursor_tick_in_bounds (fuel : nat) (dt : num) (reverse forward : bool)
    (self self' : Cursor.t) (changed : bool) :
  1 <= Cursor.nslides self ->
  Cursor.in_bounds self ->
  Cursor.tick fuel dt reverse forward self = Some (changed, self') ->
  Cursor.in_bounds self' /\ Cursor.nslides self' = Cursor.nslides self.
Proof.
  unfold Cursor.tick, Cursor.in_bounds. intros Hn Hin Hrun.
  destruct (reverse && forward).
  - injection Hrun as _ <-. split; [exact Hin | reflexivity].
  - destruct (Repeater.tick fuel dt reverse _) as [[back rev']|]; [|discriminate].
    simpl in Hrun.
    destruct (Repeater.tick fuel dt forward _) as [[ahead fwd']|]; [|discriminate].
    simpl in Hrun. injection Hrun as _ <-. simpl. split; [lia | reflexivity].
Qed.

Lemma Cursor_ticks_in_bounds (fuel : nat) (inputs : list Cursor.sample) :
  forall (self self' : Cursor.t) (flags : list bool),
    1 <= Cursor.nslides self ->
    Cursor.in_bounds self ->
    Cursor.ticks fuel inputs self = Some (flags, self') ->
    Cursor.in_bounds self' /\ Cursor.nslides self' = Cursor.nslides self.
Proof.
  induction inputs as [|[[dt reverse] forward] rest IH]; intros self self' flags Hn Hin Hrun.
  - injection Hrun as _ <-. split; [exact Hin | reflexivity].
  - simpl in Hrun.
    destruct (Cursor.tick fuel dt reverse forward self) as [[changed mid]|] eqn:E;
      [|discriminate].
    simpl in Hrun.
    destruct (Cursor.ticks fuel rest mid) as [[flags' final]|] eqn:E'; [|discriminate].
    simpl in Hrun. injection Hrun as _ <-.
    destruct (Cursor_tick_in_bounds _ _ _ _ _ _ _ Hn Hin E) as [Hmid Hsame].
    destruct (IH mid final flags') as [Hfinal Hsame']; [lia | exact Hmid | exact E' |].
    split; [exact Hfinal | congruence].
Qed.

End CursorFacts.

(** ** The timer in exact arithmetic *)

Section ExactFacts.
Local Open Scope Q_scope.

Lemma Qltb_lt (a b : Q) : Qltb a b = true <-> a < b.
Proof.
  unfold Qltb. rewrite negb_true_iff. split.
  - intros E. apply Qnot_le_lt. intros Hle. apply Qle_bool_iff in Hle. congruence.
  - intros Hlt. destruct (Qle_bool b a) eqn:E; [|reflexivity].
    apply Qle_bool_iff in E. exfalso. lra.
Qed.

Lemma Qltb_ge (a b : Q) : Qltb a b = false <-> b <= a.
Proof. unfold Qltb. rewrite negb_false_iff. apply Qle_bool_iff. Qed.

Lemma inject_Z_succ (n : nat) : inject_Z (Z.of_nat (S n)) == inject_Z (Z.of_nat n) + 1.
Proof. rewrite Nat2Z.inj_succ. unfold Z.succ. rewrite inject_Z_plus. reflexivity. Qed.

Lemma inject_Z_pred (z : Z) : inject_Z (z - 1) == inject_Z z - 1.
Proof. unfold Z.sub. rewrite inject_Z_plus, inject_Z_opp. reflexivity. Qed.

Lemma inject_Z_nonneg (z : Z) : (0 <= z)%Z -> 0 <= inject_Z z.
Proof. intros Hz. change 0 with (inject_Z 0). rewrite <- Zle_Qle. exact Hz. Qed.

(** The loop takes [n] steps on a stopwatch in [(n * 0.1, (n + 1) * 0.1]]
    (or below 0.1 when [n = 0]), whatever fuel beyond [n] it is given. *)
Lemma countdown_loop_steps (n : nat) :
  forall (fuel : nat) (fires : Z) (sw : Q),
    (n <= fuel)%nat ->
    n = 0%nat \/ inject_Z (Z.of_nat n) * (1 # 10) < sw ->
    sw <= (inject_Z (Z.of_nat n) + 1) * (1 # 10) ->
    exists sw' : Q,
      Repeater.countdown_loop (F := Exact) fuel fires sw = Some ((fires + Z.of_nat n)%Z, sw')
      /\ sw' == sw - inject_Z (Z.of_nat n) * (1 # 10).
Proof.
  induction n as [|n IH]; intros fuel fires sw Hfuel Hlow Hhigh.
  - exists sw. split.
    + assert (Hstop : fgt (F := Exact) sw (Repeater.REPEAT_INTERVAL (F := Exact)) = false).
      { apply Qltb_ge. change (sw <= 1 # 10).
        change (inject_Z (Z.of_nat 0)) with 0 in Hhigh. lra. }
      destruct fuel; cbn [Repeater.countdown_loop]; rewrite Hstop; f_equal; f_equal; lia.
    + change (inject_Z (Z.of_nat 0)) with 0. lra.
  - destruct Hlow as [Hlow|Hlow]; [discriminate|].
    destruct fuel as [|fuel]; [lia|].
    rewrite inject_Z_succ in Hlow, Hhigh.
    pose proof (inject_Z_nonneg (Z.of_nat n) (Nat2Z.is_nonneg n)) as Hn.
    assert (Hgo : fgt (F := Exact) sw (Repeater.REPEAT_INTERVAL (F := Exact)) = true).
    { apply Qltb_lt. change (1 # 10 < sw). lra. }
    cbn [Repeater.countdown_loop]. rewrite Hgo.
    destruct (IH fuel (fires + 1)%Z (sw - (1 # 10))) as (sw' & Hrun & Hsw').
    + lia.
    + destruct n as [|n]; [left; reflexivity|right]. lra.
    + lra.
    + exists sw'. split.
      * change (@fsub Exact sw (@Repeater.REPEAT_INTERVAL Exact)) with (sw - (1 # 10)).
        rewrite Hrun. f_equal. f_equal. lia.
      * rewrite Hsw'. rewrite inject_Z_succ. lra.
Qed.

Lemma intervals_nonneg (r : Q) : (0 <= intervals r)%Z.
Proof. unfold intervals. lia. Qed.

Lemma Qdiv_tenth (r : Q) : r / (1 # 10) == r * 10.
Proof. field. Qed.

(** [intervals r] is the step count of the previous lemma. *)
Lemma intervals_range (r : Q) :
  (intervals r = 0%Z \/ inject_Z (intervals r) * (1 # 10) < r)
  /\ r <= (inject_Z (intervals r) + 1) * (1 # 10).
Proof.
  unfold intervals.
  pose proof (Qle_ceiling (r / (1 # 10))) as Hup.
  pose proof (Qceiling_lt (r / (1 # 10))) as Hdown.
  set (c := Qceiling (r / (1 # 10))) in *.
  rewrite Qdiv_tenth in Hup, Hdown.
  rewrite inject_Z_pred in Hdown.
  destruct (Z.max_spec 0 (c - 1)) as [[Hc ->]|[Hc ->]].
  - rewrite inject_Z_pred. split; [right|]; lra.
  - change (inject_Z 0) with 0. split; [left; reflexivity|].
    assert (inject_Z c <= 1) by (change 1 with (inject_Z 1); rewrite <- Zle_Qle; lia).
    lra.
Qed.

(** [Repeater._countdown] in closed form: it returns [intervals sw] and
    leaves a remainder of at most 0.1, positive when [sw] is. *)
Lemma countdown_loop_closed (fuel : nat) (fires : Z) (sw : Q) :
  (Z.to_nat (intervals sw) <= fuel)%nat ->
  exists sw' : Q,
    Repeater.countdown_loop (F := Exact) fuel fires sw = Some ((fires + intervals sw)%Z, sw')
    /\ sw' == sw - inject_Z (intervals sw) * (1 # 10)
    /\ sw' <= 1 # 10
    /\ (0 < sw -> 0 < sw').
Proof.
  intros Hfuel.
  pose proof (intervals_nonneg sw) as Hnn.
  destruct (intervals_range sw) as [Hlow Hhigh].
  destruct (countdown_loop_steps (Z.to_nat (intervals sw)) fuel fires sw) as (sw' & Hrun & Hsw').
  - exact Hfuel.
  - rewrite Z2Nat.id by exact Hnn. destruct Hlow as [->|Hlow]; [left; reflexivity|right; exact Hlow].
  - rewrite Z2Nat.id by exact Hnn. exact Hhigh.
  - rewrite Z2Nat.id in Hrun, Hsw' by exact Hnn.
    exists sw'. split; [exact Hrun|]. split; [exact Hsw'|].
    split; [lra|]. intros Hpos.
    destruct Hlow as [Hz|Hlow]; [rewrite Hz in Hsw'; change (inject_Z 0) with 0 in Hsw'|]; lra.
Qed.

Lemma _countdown_closed (fuel : nat) (self : Repeater.t (F := Exact)) :
  (Z.to_nat (intervals (Repeater.stopwatch self)) <= fuel)%nat ->
  exists sw' : Q,
    Repeater._countdown fuel self
    = Some (intervals (Repeater.stopwatch self),
            Repeater.mk (F := Exact) (Repeater.state self) sw')
    /\ sw' == Repeater.stopwatch self - inject_Z (intervals (Repeater.stopwatch self)) * (1 # 10)
    /\ sw' <= 1 # 10
    /\ (0 < Repeater.stopwatch self -> 0 < sw').
Proof.
  intros Hfuel.
  destruct (countdown_loop_closed fuel 0 (Repeater.stopwatch self) Hfuel)
    as (sw' & Hrun & Hrest).
  exists sw'. split; [|exact Hrest].
  unfold Repeater._countdown. rewrite Hrun. reflexivity.
Qed.

(** In exact arithmetic every call of [Repeater.tick] returns. *)
Lemma Repeater_tick_total (dt : Q) (is_down : bool) (self : Repeater.t (F := Exact)) :
  exists (fuel : nat) (r : Z * Repeater.t),
    Repeater.tick (F := Exact) fuel dt is_down self = Some r.
Proof.
  unfold Repeater.tick.
  destruct (negb is_down); [exists 0%nat; eauto|].
  destruct (Repeater.state self); [exists 0%nat; eauto| |].
  - destruct (flt _ _); [exists 0%nat; eauto|].
    set (fired := {| Repeater.state := Repeater.FIRE; Repeater.stopwatch := _ |}).
    destruct (_countdown_closed _ fired (Nat.le_refl _)) as (sw' & Hrun & _).
    eexists. rewrite Hrun. simpl. eauto.
  - set (fired := {| Repeater.state := Repeater.FIRE; Repeater.stopwatch := _ |}).
    destruct (_countdown_closed _ fired (Nat.le_refl _)) as (sw' & Hrun & _).
    eexists. rewrite Hrun. eauto.
Qed.

(** In exact arithmetic every call of [Cursor.tick] returns. *)
Lemma Cursor_tick_total (dt : Q) (reverse forward : bool) (self : Cursor.t (F := Exact)) :
  exists (fuel : nat) (r : bool * Cursor.t),
    Cursor.tick (F := Exact) fuel dt reverse forward self = Some r.
Proof.
  destruct (Repeater_tick_total dt reverse (Cursor.rev self)) as (f1 & [back rev'] & H1).
  destruct (Repeater_tick_total dt forward (Cursor.fwd self)) as (f2 & [ahead fwd'] & H2).
  exists (Nat.max f1 f2). unfold Cursor.tick.
  destruct (reverse && forward); [eauto|].
  rewrite (Repeater_tick_fuel_mono f1 (Nat.max f1 f2) _ _ _ _ (Nat.le_max_l _ _) H1).
  simpl.
  rewrite (Repeater_tick_fuel_mono f2 (Nat.max f1 f2) _ _ _ _ (Nat.le_max_r _ _) H2).
  simpl. eauto.
Qed.

(** In exact arithmetic every finite sequence of [Cursor.tick] calls runs to
    its end. *)
Lemma Cursor_ticks_total (inputs : list (Cursor.sample (F := Exact))) :
  forall self : Cursor.t (F := Exact),
    exists (fuel : nat) (r : list bool * Cursor.t),
      Cursor.ticks (F := Exact) fuel inputs self = Some r.
Proof.
  induction inputs as [|[[dt reverse] forward] rest IH]; intros self.
  - exists 0%nat. simpl. eauto.
  - destruct (Cursor_tick_total dt reverse forward self) as (f1 & [changed mid] & H1).
    destruct (IH mid) as (f2 & [flags final] & H2).
    exists (Nat.max f1 f2). simpl.
    rewrite (Cursor_tick_fuel_mono f1 (Nat.max f1 f2) _ _ _ _ _ (Nat.le_max_l _ _) H1).
    simpl.
    rewrite (Cursor_ticks_fuel_mono f2 (Nat.max f1 f2) _ _ _ (Nat.le_max_r _ _) H2).
    simpl. eauto.
Qed.

End ExactFacts.

(** C5.  A controller created with [nslides >= 1] keeps its cursor within
    [[0, nslides - 1]] through every finite sequence of [tick] calls, whatever
    the intervals and the inputs (so also for [dt >= 0]; every prefix of a
    sequence is a sequence, so the bound holds after every tick, and for
    [nslides = 1] the cursor is 0).  It holds in every arithmetic, binary64
    included, for every sequence of calls that returns; and in exact
    arithmetic every sequence of calls returns. *)
Theorem Cursor_stays_in_bounds (nslides : Z) :
  1 <= nslides ->
  (forall (F : PyFloat) (fuel : nat) (inputs : list Cursor.sample)
          (flags : list bool) (final : Cursor.t),
      Cursor.ticks fuel inputs (Cursor.init nslides) = Some (flags, final) ->
      0 <= Cursor.cursor final <= nslides - 1)
  /\ (forall inputs : list (Cursor.sample (F := Exact)),
      exists (fuel : nat) (flags : list bool) (final : Cursor.t),
        Cursor.ticks (F := Exact) fuel inputs (Cursor.init nslides) = Some (flags, final)
        /\ 0 <= Cursor.cursor final <= nslides - 1).
Proof.
  intros Hn.
  assert (Hgen : forall (F : PyFloat) (fuel : nat) (inputs : list Cursor.sample)
                   (flags : list bool) (final : Cursor.t),
             Cursor.ticks fuel inputs (Cursor.init nslides) = Some (flags, final) ->
             0 <= Cursor.cursor final <= nslides - 1).
  { intros F fuel inputs flags final Hrun.
    destruct (Cursor_ticks_in_bounds fuel inputs (Cursor.init nslides) final flags)
      as [Hin Hsame].
    - exact Hn.
    - unfold Cursor.in_bounds. simpl. lia.
    - exact Hrun.
    - unfold Cursor.in_bounds in Hin. simpl in Hsame. rewrite Hsame in Hin. exact Hin. }
  split; [exact Hgen|].
  intros inputs.
  destruct (Cursor_ticks_total inputs (Cursor.init nslides)) as (fuel & [flags final] & Hrun).
  exists fuel, flags, final. split; [exact Hrun|].
  exact (Hgen Exact fuel inputs flags final Hrun).
Qed.

(** At one slide, over three samples in binary64 arithmetic. *)
Lemma Cursor_stays_in_bounds_witness :
  exists (flags : list bool) (final : Cursor.t),
    Cursor.ticks (F := Binary64) 16
      [(0x1p-2%float, false, true); (0x1p+0%float, false, true); (0x1p-2%float, true, false)]
      (Cursor.init 1) = Some (flags, final)
    /\ 0 <= Cursor.cursor final <= 1 - 1.
Proof.
  eexists _, _. split; [vm_compute; reflexivity|].
  apply (proj1 (Cursor_stays_in_bounds 1 ltac:(lia)) Binary64 16%nat
           [(0x1p-2%float, false, true); (0x1p+0%float, false, true);
            (0x1p-2%float, true, false)]
           [false; false; false]).
  vm_compute; reflexivity.
Defined.

(** ** The end-to-end scenario *)

Section ScenarioBinary64.

Lemma scenario_binary64_first_ten :
  Cursor.ticks (F := Binary64) 1 (replicate 10 forward_0_05_binary64) scenario_start
  = Some ([true; false; false; false; false; false; false; false; true; false], upper).
Proof. vm_compute. reflexivity. Qed.

Lemma scenario_binary64_cycle (n : nat) :
  forall self : Cursor.t (F := Binary64),
    self = upper \/ self = lower ->
    exists final : Cursor.t (F := Binary64),
      Cursor.ticks (F := Binary64) 1 (replicate n forward_0_05_binary64) self
      = Some (replicate n false, final)
      /\ (final = upper \/ final = lower).
Proof.
  induction n as [|n IH]; intros self Hself.
  - exists self. split; [reflexivity | exact Hself].
  - assert (Hstep : exists next, Cursor.tick (F := Binary64) 1 0x1.999999999999ap-5%float
                                   false true self = Some (false, next)
                                 /\ (next = upper \/ next = lower)).
    { destruct Hself as [-> | ->].
      - exists lower. split; [vm_compute; reflexivity | right; reflexivity].
      - exists upper. split; [vm_compute; reflexivity | left; reflexivity]. }
    destruct Hstep as (next & Hstep & Hnext).
    destruct (IH next Hnext) as (final & Hrun & Hfinal).
    exists final. split; [|exact Hfinal].
    change (Cursor.ticks (F := Binary64) 1 (replicate (S n) forward_0_05_binary64) self)
      with ('(changed, self') ← Cursor.tick (F := Binary64) 1 0x1.999999999999ap-5%float
                                   false true self;
            '(flags, final) ← Cursor.ticks (F := Binary64) 1
                                 (replicate n forward_0_05_binary64) self';
            Some (changed :: flags, final)).
    rewrite Hstep. cbn [mbind option_bind]. rewrite Hrun. reflexivity.
Qed.

Lemma scenario_binary64 :
  exists mid : Cursor.t (F := Binary64),
    Cursor.ticks (F := Binary64) 1 (replicate 10 forward_0_05_binary64) scenario_start
    = Some ([true; false; false; false; false; false; false; false; true; false], mid)
    /\ Cursor.cursor mid = 4
    /\ forall n : nat, exists final : Cursor.t (F := Binary64),
         Cursor.ticks (F := Binary64) 1 (replicate n forward_0_05_binary64) mid
         = Some (replicate n false, final)
         /\ Cursor.cursor final = 4.
Proof.
  exists upper. split; [exact scenario_binary64_first_ten|]. split; [reflexivity|].
  intros n. destruct (scenario_binary64_cycle n upper (or_introl eq_refl))
    as (final & Hrun & Hfinal).
  exists final. split; [exact Hrun|]. destruct Hfinal as [-> | ->]; reflexivity.
Qed.

End ScenarioBinary64.

Section ScenarioExact.
Local Open Scope Q_scope.

Lemma intervals_le (x : Q) (k : Z) :
  (0 <= k)%Z -> x <= (inject_Z k + 1) * (1 # 10) -> (intervals x <= k)%Z.
Proof.
  intros Hk Hx. destruct (intervals_range x) as [[Hz|Hlow] _]; [lia|].
  assert (Hlt : inject_Z (intervals x) < inject_Z (k + 1)).
  { rewrite inject_Z_plus. change (inject_Z 1) with 1. lra. }
  rewrite <- Zlt_Qlt in Hlt. lia.
Qed.

Lemma scenario_exact_first_ten :
  exists mid : Cursor.t (F := Exact),
    Cursor.ticks (F := Exact) 1 (replicate 10 forward_0_05_exact) scenario_start
    = Some ([true; false; false; false; false; false; false; true; false; false], mid)
    /\ at_ceiling mid.
Proof.
  eexists. split; [vm_compute; reflexivity|].
  repeat split. apply Qle_bool_iff. vm_compute. reflexivity.
Qed.

Lemma scenario_exact_step (self : Cursor.t (F := Exact)) :
  at_ceiling self ->
  exists next : Cursor.t (F := Exact),
    Cursor.tick (F := Exact) 1 (1 # 20) false true self = Some (false, next)
    /\ at_ceiling next.
Proof.
  destruct self as [rev [st sw] cur n]. unfold at_ceiling. simpl.
  intros (-> & -> & -> & Hsw).
  set (fired := Repeater.mk (F := Exact) Repeater.FIRE (sw + (1 # 20))).
  assert (Hfuel : (Z.to_nat (intervals (Repeater.stopwatch fired)) <= 1)%nat).
  { pose proof (intervals_le (sw + (1 # 20)) 1 ltac:(lia)) as Hle.
    change (inject_Z 1) with 1 in Hle. simpl. specialize (Hle ltac:(lra)). lia. }
  destruct (_countdown_closed 1 fired Hfuel) as (sw' & Hrun & _ & Hsw' & _).
  pose proof (intervals_nonneg (Repeater.stopwatch fired)) as Hnn.
  eexists.
  change (Cursor.tick (F := Exact) 1 (1 # 20) false true
            {| Cursor.rev := rev; Cursor.fwd := Repeater.mk (F := Exact) Repeater.FIRE sw;
               Cursor.cursor := 4; Cursor.nslides := 5 |})
    with ('(ahead, fwd') ← Repeater._countdown (F := Exact) 1 fired;
          Some (negb (Z.max (Z.min (4 - 0 + ahead) (5 - 1)) 0 =? 4),
                {| Cursor.rev := Repeater.mk (F := Exact) Repeater.UP (Repeater.stopwatch rev);
                   Cursor.fwd := fwd';
                   Cursor.cursor := Z.max (Z.min (4 - 0 + ahead) (5 - 1)) 0;
                   Cursor.nslides := 5 |})).
  rewrite Hrun. cbn [mbind option_bind].
  assert (Hcur : Z.max (Z.min (4 - 0 + intervals (Repeater.stopwatch fired)) (5 - 1)) 0 = 4%Z)
    by lia.
  rewrite Hcur. split; [reflexivity|].
  unfold at_ceiling. cbn [Cursor.cursor Cursor.nslides Cursor.fwd Repeater.state
    Repeater.stopwatch]. repeat split. exact Hsw'.
Qed.

Lemma scenario_exact_cycle (n : nat) :
  forall self : Cursor.t (F := Exact),
    at_ceiling self ->
    exists final : Cursor.t (F := Exact),
      Cursor.ticks (F := Exact) 1 (replicate n forward_0_05_exact) self
      = Some (replicate n false, final)
      /\ at_ceiling final.
Proof.
  induction n as [|n IH]; intros self Hself.
  - exists self. split; [reflexivity | exact Hself].
  - destruct (scenario_exact_step self Hself) as (next & Hstep & Hnext).
    destruct (IH next Hnext) as (final & Hrun & Hfinal).
    exists final. split; [|exact Hfinal].
    change (Cursor.ticks (F := Exact) 1 (replicate (S n) forward_0_05_exact) self)
      with ('(changed, self') ← Cursor.tick (F := Exact) 1 (1 # 20) false true self;
            '(flags, final) ← Cursor.ticks (F := Exact) 1
                                 (replicate n forward_0_05_exact) self';
            Some (changed :: flags, final)).
    rewrite Hstep. cbn [mbind option_bind]. rewrite Hrun. reflexivity.
Qed.

Lemma scenario_exact :
  exists mid : Cursor.t (F := Exact),
    Cursor.ticks (F := Exact) 1 (replicate 10 forward_0_05_exact) scenario_start
    = Some ([true; false; false; false; false; false; false; true; false; false], mid)
    /\ Cursor.cursor mid = 4%Z
    /\ forall n : nat, exists final : Cursor.t (F := Exact),
         Cursor.ticks (F := Exact) 1 (replicate n forward_0_05_exact) mid
         = Some (replicate n false, final)
         /\ Cursor.cursor final = 4%Z.
Proof.
  destruct scenario_exact_first_ten as (mid & Hrun & Hmid).
  exists mid. split; [exact Hrun|]. split; [apply Hmid|].
  intros n. destruct (scenario_exact_cycle n mid Hmid) as (final & Hfinal & Hat).
  exists final. split; [exact Hfinal | apply Hat].
Qed.

End ScenarioExact.

(** C9.  Five slides, the cursor on slide 2, forward held and reverse
    released, ticks of 0.05 s.  Over the first ten ticks (0.5 s) [tick]
    returns [True] exactly twice, for the press and for the one repeat fired
    when the stopwatch crosses the 0.4 s trigger, and the cursor lands on 4;
    from there, however many more ticks follow with forward held, every call
    returns [False] and the cursor stays at 4.  This holds in binary64
    arithmetic, where the repeat fires on the ninth tick (the eight-fold sum
    of 0.05 rounds below 0.4), and in exact arithmetic, where it fires on the
    eighth. *)
Theorem Cursor_end_to_end :
  (exists mid : Cursor.t (F := Binary64),
     Cursor.ticks (F := Binary64) 1 (replicate 10 forward_0_05_binary64) scenario_start
     = Some ([true; false; false; false; false; false; false; false; true; false], mid)
     /\ Cursor.cursor mid = 4
     /\ forall n : nat, exists final : Cursor.t (F := Binary64),
          Cursor.ticks (F := Binary64) 1 (replicate n forward_0_05_binary64) mid
          = Some (replicate n false, final)
          /\ Cursor.cursor final = 4)
  /\ (exists mid : Cursor.t (F := Exact),
     Cursor.ticks (F := Exact) 1 (replicate 10 forward_0_05_exact) scenario_start
     = Some ([true; false; false; false; false; false; false; true; false; false], mid)
     /\ Cursor.cursor mid = 4
     /\ forall n : nat, exists final : Cursor.t (F := Exact),
          Cursor.ticks (F := Exact) 1 (replicate n forward_0_05_exact) mid
          = Some (replicate n false, final)
          /\ Cursor.cursor final = 4).
Proof. split; [exact scenario_binary64 | exact scenario_exact]. Qed.

(** ** The repeat timer held down, in exact arithmetic *)


Section HeldExact.
Local Open Scope Q_scope.






End HeldExact.




(** ** Python lists *)

Section PyList.
Context {A : Type}.
Implicit Types (l : list A) (i : Z).

Lemma py_index_inside l i :
  0 <= i < Z.of_nat (length l) -> py_index l i = Some (Z.to_nat i).
Proof.
  intros Hi. unfold py_index.
  destruct (Z.leb_spec 0 i); [|lia]. destruct (Z.ltb_spec i (Z.of_nat (length l))); [|lia].
  reflexivity.
Qed.

Lemma py_index_beyond l i : Z.of_nat (length l) <= i -> py_index l i = None.
Proof.
  intros Hi. unfold py_index.
  destruct (Z.leb_spec 0 i); [|lia]. destruct (Z.ltb_spec i (Z.of_nat (length l))); [lia|].
  cbn [andb]. destruct (Z.ltb_spec i 0); [lia|]. rewrite andb_false_r. reflexivity.
Qed.

Lemma py_index_last l :
  l <> [] -> py_index l (-1) = Some (pred (length l)).
Proof.
  intros Hl. unfold py_index. destruct l as [|x l]; [congruence|].
  cbn [length]. change (0 <=? -1) with false. cbn [andb].
  destruct (Z.leb_spec (- Z.of_nat (S (length l))) (-1)); [|lia].
  change (-1 <? 0) with true. cbn [andb]. f_equal. lia.
Qed.

Lemma getitem_last_nil : getitem (@nil A) (-1) = None.
Proof. reflexivity. Qed.

End PyList.

Lemma page_range_nil (first last : Z) : last < first -> page_range first last = [].
Proof.
  intros Hlt. unfold page_range. replace (Z.to_nat (last + 1 - first)) with 0%nat by lia.
  reflexivity.
Qed.

Lemma page_range_cons (first last : Z) :
  first <= last -> page_range first last = first :: page_range (first + 1) last.
Proof.
  intros Hle. unfold page_range.
  replace (Z.to_nat (last + 1 - first)) with (S (Z.to_nat (last + 1 - (first + 1)))) by lia.
  cbn [seq map]. f_equal; [lia|].
  rewrite <- seq_shift, map_map. apply map_ext. intros k. lia.
Qed.

Lemma length_page_range (first last : Z) :
  length (page_range first last) = Z.to_nat (last + 1 - first).
Proof. unfold page_range. rewrite length_map, length_seq. reflexivity. Qed.

Lemma lookup_page_range (first last : Z) (i : nat) :
  (i < Z.to_nat (last + 1 - first))%nat ->
  page_range first last !! i = Some (first + Z.of_nat i).
Proof.
  intros Hi. unfold page_range. rewrite list_lookup_fmap, lookup_seq_lt by exact Hi.
  reflexivity.
Qed.

(** ** The rasterizer worker *)

Section WorkerFacts.
Context {F : PyFloat}.
Import Rasterizer.

(** What [store_chunk] does with the consecutive pages from [page] to
    [last]: it extends the rendered prefix, or raises IndexError when [last]
    lies past the end of [images]. *)
Lemma store_chunk_range (n : nat) :
  forall (self : worker) (last : Z),
    Z.to_nat (last + 1 - page self) = n ->
    1 <= page self ->
    rendered_prefix self ->
    match store_chunk (map (fun p => Page p (image_size_of self))
                           (page_range (page self) last)) self with
    | Normal self' =>
        page self' = Z.max (page self) (last + 1)
        /\ length (images self') = length (images self)
        /\ window_size self' = window_size self
        /\ image_size_of self' = image_size_of self
        /\ rendered_prefix self'
        /\ last <= Z.max (page self - 1) (Z.of_nat (length (images self)))
    | Returned => False
    | Raised e => e = IndexError /\ Z.of_nat (length (images self)) < last
    end.
Proof.
  induction n as [|n IH]; intros self last Hn Hpage Hprefix.
  - rewrite page_range_nil by lia. cbn [map store_chunk].
    repeat split; [lia | exact Hprefix | lia].
  - rewrite page_range_cons by lia. cbn [map store_chunk]. unfold setitem.
    destruct (Z.lt_ge_cases (page self - 1) (Z.of_nat (length (images self)))) as [Hin|Hout].
    + rewrite py_index_inside by lia. cbn [mbind option_bind].
      set (self1 := {| page := page self + 1;
                       images := <[Z.to_nat (page self - 1) := Some (Page (page self)
                                                                     (image_size_of self))]>
                                   (images self);
                       window_size := window_size self;
                       image_size_of := image_size_of self |}).
      assert (Hprefix1 : rendered_prefix self1).
      { intros i Hi. cbn [self1 page images image_size_of] in *.
        destruct (decide (i = Z.to_nat (page self - 1))) as [->|Hne].
        - rewrite list_lookup_insert_eq by lia. do 3 f_equal. lia.
        - rewrite list_lookup_insert_ne by congruence. apply Hprefix. lia. }
      specialize (IH self1 last ltac:(cbn [self1 page]; lia) ltac:(cbn [self1 page]; lia)
                    Hprefix1).
      change (image_size_of self) with (image_size_of self1).
      change (page self + 1) with (page self1).
      destruct (store_chunk _ self1) as [self'| |e]; [|exact IH|].
      * destruct IH as (Hp & Hlen & Hws & Hsz & Hpre & Hlast).
        cbn [self1 page images window_size image_size_of] in *.
        rewrite length_insert in Hlen, Hlast.
        repeat split; [lia | exact Hlen | exact Hws | exact Hsz | exact Hpre | lia].
      * destruct IH as [-> Hlast]. cbn [self1 images] in Hlast.
        rewrite length_insert in Hlast. split; [reflexivity | exact Hlast].
    + rewrite py_index_beyond by lia. cbn [mbind option_bind]. split; [reflexivity | lia].
Qed.

Lemma length_full_set (pagelimit : Z) (size : image_size) :
  length (full_set pagelimit size) = Z.to_nat pagelimit.
Proof.
  unfold full_set. rewrite length_map, length_page_range. f_equal. lia.
Qed.

Lemma lookup_full_set (pagelimit : Z) (size : image_size) (i : nat) :
  (i < Z.to_nat pagelimit)%nat ->
  full_set pagelimit size !! i = Some (Some (Page (Z.of_nat i + 1) size)).
Proof.
  intros Hi. unfold full_set.
  rewrite list_lookup_fmap, lookup_page_range by lia. cbn. do 3 f_equal. lia.
Qed.

(** A worker that has stored every page holds the full set. *)
Lemma rendered_prefix_full (pagelimit : Z) (self : worker) :
  rendered_prefix self ->
  page self = pagelimit + 1 ->
  length (images self) = Z.to_nat pagelimit ->
  images self = full_set pagelimit (image_size_of self).
Proof.
  intros Hprefix Hpage Hlen. apply list_eq. intros i.
  destruct (Nat.lt_ge_cases i (Z.to_nat pagelimit)) as [Hi|Hi].
  - rewrite lookup_full_set by exact Hi. apply Hprefix. lia.
  - rewrite (proj2 (lookup_ge_None _ _)) by lia.
    symmetry. apply lookup_ge_None. rewrite length_full_set. exact Hi.
Qed.

Lemma getitem_last_replicate (n : nat) :
  getitem (replicate n (@None Image)) (-1) = match n with O => None | S _ => Some None end.
Proof.
  destruct n as [|n]; [reflexivity|].
  unfold getitem. rewrite py_index_last by discriminate. cbn [mbind option_bind].
  rewrite length_replicate. cbn [pred]. apply lookup_replicate_2. lia.
Qed.

Lemma rasterargs_valid (it : item) (aspect : num) :
  valid_size it -> exists size, _winsize2rasterargs it aspect = Normal size.
Proof.
  intros (w & h & -> & Hh). unfold _winsize2rasterargs.
  destruct (Z.eqb_spec h 0); [contradiction|].
  destruct (fge _ aspect); eauto.
Qed.

(** The drain keeps the invariant; with nothing queued it changes nothing. *)
Lemma drain_inv (pagelimit : Z) (aspect : num) (items : list item) :
  forall self : worker,
    worker_inv pagelimit aspect self ->
    match drain aspect items self with
    | Normal self' => worker_inv pagelimit aspect self'
    | _ => True
    end.
Proof.
  induction items as [|[ws|] items IH]; intros self Hinv; cbn [drain]; [exact Hinv| |exact I].
  destruct (_winsize2rasterargs (Some ws) aspect) as [size| |e] eqn:E; cbn; [|exact I|exact I].
  apply IH. destruct Hinv as (Hlen & _ & _ & _).
  repeat split; [exact Hlen | cbn; lia | exact E |].
  left. intros i Hi. cbn in Hi. lia.
Qed.

Lemma start_inv (pagelimit : Z) (doc : document) (first : item) (self : worker) :
  start pagelimit doc first = Normal self ->
  worker_inv pagelimit (doc_aspect doc) self.
Proof.
  unfold start. destruct (_winsize2rasterargs first (doc_aspect doc)) as [size| |e] eqn:E;
    cbn; [|discriminate|discriminate].
  intros [= <-]. repeat split; cbn; [apply length_replicate | lia | exact E |].
  left. intros i Hi. cbn in Hi. lia.
Qed.

(** One pass of the loop keeps the invariant and publishes only complete
    sets. *)
Lemma iteration_inv (pagelimit : Z) (doc : document) (items : list item) (self : worker) :
  worker_inv pagelimit (doc_aspect doc) self ->
  Forall (complete_set pagelimit (doc_aspect doc)) (iteration pagelimit doc items self).1
  /\ match (iteration pagelimit doc items self).2 with
     | Normal self' => worker_inv pagelimit (doc_aspect doc) self'
     | _ => True
     end.
Proof.
  intros Hinv. unfold iteration.
  pose proof (drain_inv pagelimit (doc_aspect doc) items self Hinv) as Hdrain.
  destruct (drain (doc_aspect doc) items self) as [mid| |e]; cbn [fst snd];
    [|split; [constructor|exact I]..].
  destruct Hdrain as (Hlen & Hpage & Hsize & Hstate).
  destruct (Z.eqb_spec (page mid) (pagelimit + 1)) as [Hdone|Hmore].
  - destruct (getitem (images mid) (-1)) as [[img|]|] eqn:Hlast; cbn [fst snd].
    + destruct Hstate as [Hprefix|[_ Hidle]].
      * assert (Hpl : 1 <= pagelimit).
        { destruct (images mid) as [|x l] eqn:El; [discriminate|]. cbn in Hlen. lia. }
        split.
        -- constructor; [|constructor]. split; [exact Hpl|].
           exists (image_size_of mid). split; [exact Hsize|].
           cbn. apply rendered_prefix_full; assumption.
        -- repeat split; cbn; [apply length_replicate | exact Hpage | exact Hsize |].
           right. split; [exact Hdone | reflexivity].
      * rewrite Hidle, getitem_last_replicate in Hlast. destruct (Z.to_nat pagelimit); discriminate.
    + split; [constructor|]. repeat split; assumption.
    + split; [constructor | exact I].
  - cbn [fst snd]. split; [constructor|].
    destruct Hstate as [Hprefix|[Hidle _]]; [|contradiction].
    unfold convert_from_path. rewrite Z.max_l by lia.
    pose proof (store_chunk_range _ mid (Z.min (page mid + CHUNK - 1) (doc_pages doc))
                  eq_refl Hpage Hprefix) as Hstore.
    destruct (store_chunk _ mid) as [self'| |e]; [|exact I|exact I].
    destruct Hstore as (Hp & Hlen' & Hws & Hsz & Hpre & _).
    repeat split; [congruence | lia | rewrite Hws, Hsz; exact Hsize | left; exact Hpre].
Qed.

(** Every run of the main loop publishes only complete sets. *)
Lemma loop_inv (pagelimit : Z) (doc : document) (schedule : list (list item)) :
  forall self : worker,
    worker_inv pagelimit (doc_aspect doc) self ->
    Forall (complete_set pagelimit (doc_aspect doc)) (loop pagelimit doc schedule self).1
    /\ match (loop pagelimit doc schedule self).2 with
       | Normal self' => worker_inv pagelimit (doc_aspect doc) self'
       | _ => True
       end.
Proof.
  induction schedule as [|items rest IH]; intros self Hinv; cbn [loop].
  - split; [constructor | exact Hinv].
  - destruct (iteration_inv pagelimit doc items self Hinv) as [Hcalls Hnext].
    destruct (iteration pagelimit doc items self) as [calls [next| |e]]; cbn in *;
      [|split; [exact Hcalls | exact I]..].
    destruct (IH next Hnext) as [Hcalls' Hfinal].
    destruct (loop pagelimit doc rest next) as [calls' final]. cbn in *.
    split; [apply Forall_app; split; assumption | exact Hfinal].
Qed.

Lemma loop_app (pagelimit : Z) (doc : document) (a b : list (list item)) :
  forall self : worker,
    loop pagelimit doc (a ++ b) self
    = match loop pagelimit doc a self with
      | (calls, Normal mid) =>
          let '(calls', final) := loop pagelimit doc b mid in (calls ++ calls', final)
      | (calls, final) => (calls, final)
      end.
Proof.
  induction a as [|items a IH]; intros self; cbn [app loop].
  - destruct (loop pagelimit doc b self) as [calls final]. reflexivity.
  - destruct (iteration pagelimit doc items self) as [calls [next| |e]]; [|reflexivity..].
    rewrite IH. destruct (loop pagelimit doc a next) as [calls1 [mid| |e]]; [|reflexivity..].
    destruct (loop pagelimit doc b mid) as [calls2 final]. rewrite app_assoc. reflexivity.
Qed.

(** A worker that has published stays as it is while nothing is queued. *)
Lemma idle_loop (pagelimit : Z) (doc : document) (n : nat) (self : worker) :
  1 <= pagelimit ->
  idle pagelimit self ->
  loop pagelimit doc (replicate n []) self = ([], Normal self).
Proof.
  intros Hpl [Hpage Himages]. induction n as [|n IH]; [reflexivity|].
  assert (Hlast : getitem (images self) (-1) = Some None).
  { rewrite Himages, getitem_last_replicate.
    destruct (Z.to_nat pagelimit) eqn:E; [lia | reflexivity]. }
  cbn [replicate loop]. unfold iteration. cbn [drain].
  rewrite Hpage, Z.eqb_refl, Hlast, IH. reflexivity.
Qed.

(** C3.  Every image set the worker passes to the callback, over every
    document, first item and schedule of queue items, has exactly
    [pagelimit] entries (and [pagelimit >= 1]), none of them a [None]
    placeholder: entry [i] is page [i + 1] rendered at the one size derived
    from the window size current at the call. *)
Theorem published_sets_complete (pagelimit : Z) (doc : document) (first : item)
    (schedule : list (list item)) (call : published) :
  call ∈ (_rasterize_worker pagelimit doc first schedule).1 ->
  length (pub_images call) = Z.to_nat pagelimit
  /\ 1 <= pagelimit
  /\ exists size : image_size,
       _winsize2rasterargs (pub_window_size call) (doc_aspect doc) = Normal size
       /\ forall i : nat,
            (i < Z.to_nat pagelimit)%nat ->
            pub_images call !! i = Some (Some (Page (Z.of_nat i + 1) size)).
Proof.
  unfold _rasterize_worker. intros Hin.
  destruct (start pagelimit doc first) as [self| |e] eqn:Hstart;
    [|apply elem_of_nil in Hin; contradiction..].
  destruct (loop_inv pagelimit doc schedule self (start_inv _ _ _ _ Hstart)) as [Hcalls _].
  rewrite Forall_forall in Hcalls.
  destruct (Hcalls call Hin) as (Hpl & size & Hsize & Himages).
  split; [rewrite Himages; apply length_full_set|]. split; [exact Hpl|].
  exists size. split; [exact Hsize|]. intros i Hi. rewrite Himages.
  apply lookup_full_set. exact Hi.
Qed.

(** C7.  When a run has left the worker with every page stored and not yet
    published, the following passes with nothing queued, however many, make
    exactly one callback, with the stored images, on the first of them; the
    worker is left with a fresh list of placeholders and its sizes as they
    were. *)
Theorem publish_once_then_idle (pagelimit : Z) (doc : document) (first : item)
    (schedule : list (list item)) (calls : list published) (self : worker) (img : Image)
    (n : nat) :
  _rasterize_worker pagelimit doc first schedule = (calls, Normal self) ->
  page self = pagelimit + 1 ->
  getitem (images self) (-1) = Some (Some img) ->
  _rasterize_worker pagelimit doc first (schedule ++ replicate (S n) [])
  = (calls ++ [ {| pub_images := images self; pub_window_size := window_size self |} ],
     Normal {| page := page self; images := replicate (Z.to_nat pagelimit) None;
               window_size := window_size self; image_size_of := image_size_of self |}).
Proof.
  unfold _rasterize_worker. intros Hrun Hpage Hlast.
  destruct (start pagelimit doc first) as [self0| |e] eqn:Hstart; [|discriminate..].
  destruct (loop_inv pagelimit doc schedule self0 (start_inv _ _ _ _ Hstart)) as [_ Hinv].
  rewrite Hrun in Hinv. cbn [snd] in Hinv. destruct Hinv as (Hlen & _ & _ & _).
  assert (Hpl : 1 <= pagelimit).
  { destruct (images self) as [|x l]; [discriminate|]. cbn in Hlen. lia. }
  rewrite loop_app, Hrun. cbn [replicate loop]. unfold iteration. cbn [drain].
  rewrite Hpage, Z.eqb_refl, Hlast.
  rewrite idle_loop; [rewrite app_nil_r; reflexivity | exact Hpl | split; reflexivity].
Qed.

End WorkerFacts.

(** Three pages; the first size is superseded twice before the first drain
    ends, and the set published is at the third size. *)
Lemma published_sets_complete_witness :
  length [Some (Rasterizer.Page 1 (None, Some 768)); Some (Rasterizer.Page 2 (None, Some 768));
          Some (Rasterizer.Page 3 (None, Some 768))] = Z.to_nat 3
  /\ 1 <= 3
  /\ exists size : Rasterizer.image_size,
       Rasterizer._winsize2rasterargs (F := Binary64) (Some (1024, 768))
         (Rasterizer.doc_aspect (a4_document 3)) = Normal size
       /\ forall i : nat,
            (i < Z.to_nat 3)%nat ->
            [Some (Rasterizer.Page 1 (None, Some 768)); Some (Rasterizer.Page 2 (None, Some 768));
             Some (Rasterizer.Page 3 (None, Some 768))] !! i
            = Some (Some (Rasterizer.Page (Z.of_nat i + 1) size)).
Proof.
  apply (published_sets_complete (F := Binary64) 3 (a4_document 3) (Some (800, 600))
           [[Some (1, 2); Some (1024, 768)]; []; []]
           {| Rasterizer.pub_images :=
                [Some (Rasterizer.Page 1 (None, Some 768));
                 Some (Rasterizer.Page 2 (None, Some 768));
                 Some (Rasterizer.Page 3 (None, Some 768))];
              Rasterizer.pub_window_size := Some (1024, 768) |}).
  vm_compute. apply list_elem_of_here.
Defined.

(** Two pages rendered at one size; three further passes with an empty
    queue publish once. *)
Lemma publish_once_then_idle_witness :
  Rasterizer._rasterize_worker (F := Binary64) 2 (a4_document 2) (Some (800, 600))
    ([[]] ++ replicate 3 [])
  = ([] ++ [ {| Rasterizer.pub_images :=
                  [Some (Rasterizer.Page 1 (None, Some 600));
                   Some (Rasterizer.Page 2 (None, Some 600))];
                Rasterizer.pub_window_size := Some (800, 600) |} ],
     Normal {| Rasterizer.page := 3; Rasterizer.images := replicate (Z.to_nat 2) None;
               Rasterizer.window_size := Some (800, 600);
               Rasterizer.image_size_of := (None, Some 600) |}).
Proof.
  apply (publish_once_then_idle (F := Binary64) 2 (a4_document 2) (Some (800, 600)) [[]] []
           {| Rasterizer.page := 3;
              Rasterizer.images := [Some (Rasterizer.Page 1 (None, Some 600));
                                    Some (Rasterizer.Page 2 (None, Some 600))];
              Rasterizer.window_size := Some (800, 600);
              Rasterizer.image_size_of := (None, Some 600) |}
           (Rasterizer.Page 2 (None, Some 600)) 2).
  - vm_compute. reflexivity.
  - reflexivity.
  - reflexivity.
Defined.

(** ** The latest size wins *)

Lemma chunks_nonneg (pages : Z) : 0 <= pages -> 0 <= chunks pages.
Proof.
  intros Hp. unfold chunks, Rasterizer.CHUNK. apply Z.div_pos; lia.
Qed.


(** One decoder call takes 32 pages off what is left. *)
Lemma chunks_step (left : Z) :
  0 < left -> chunks left = chunks (left - Z.min 32 left) + 1.
Proof.
  intros Hl. unfold chunks, Rasterizer.CHUNK.
  destruct (Z.le_gt_cases left 32) as [Hsmall|Hbig].
  - rewrite Z.min_r by lia. replace (left - left + 32 - 1) with 31 by lia.
    change (31 / 32) with 0. symmetry. apply Z.div_unique with (r := left - 1); lia.
  - rewrite Z.min_l by lia.
    replace (left + 32 - 1) with (left - 32 + 32 - 1 + 1 * 32) by lia.
    rewrite Z.div_add by lia. reflexivity.
Qed.


Section LatestSize.
Context {F : PyFloat}.
Import Rasterizer.







End LatestSize.


(** ** [ThreadedRasterizer.get] *)

Section Facade.
Import Rasterizer.

(** C4.  Before any image set is published [get] returns [None] for every
    index.  After [images_done] has stored a set whose first entry is an
    image, on whatever state, [get] returns the entry stored at [index] for
    [0 <= index < len(images)] and the blank image, the all-zero lookup table
    applied to the first image, for every other index; so for [-1] and for
    [len(images)]. *)
Theorem get_after_publish (images2 : list (option Image)) (first : Image)
    (self : ThreadedRasterizer.t) :
  getitem images2 0 = Some (Some first) ->
  (forall index : Z, ThreadedRasterizer.get index ThreadedRasterizer.init = None)
  /\ (ThreadedRasterizer.images_done images2 self).2 = None
  /\ (forall index : Z,
        0 <= index < Z.of_nat (length images2) ->
        ThreadedRasterizer.get index (ThreadedRasterizer.images_done images2 self).1
        = mjoin (images2 !! Z.to_nat index))
  /\ (forall index : Z,
        index < 0 \/ Z.of_nat (length images2) <= index ->
        ThreadedRasterizer.get index (ThreadedRasterizer.images_done images2 self).1
        = Some (Point (replicate (256 * 3) 0) first))
  /\ ThreadedRasterizer.get (-1) (ThreadedRasterizer.images_done images2 self).1
     = Some (Point (replicate (256 * 3) 0) first)
  /\ ThreadedRasterizer.get (Z.of_nat (length images2))
       (ThreadedRasterizer.images_done images2 self).1
     = Some (Point (replicate (256 * 3) 0) first).
Proof.
  intros Hfirst.
  assert (Hout : forall index : Z,
             index < 0 \/ Z.of_nat (length images2) <= index ->
             ThreadedRasterizer.get index (ThreadedRasterizer.images_done images2 self).1
             = Some (Point (replicate (256 * 3) 0) first)).
  { intros index Hindex. unfold ThreadedRasterizer.images_done. rewrite Hfirst.
    unfold ThreadedRasterizer.get. cbn [fst ThreadedRasterizer.images ThreadedRasterizer.black].
    destruct (Z.leb_spec 0 index); [|reflexivity].
    destruct (Z.ltb_spec index (Z.of_nat (length images2))); [lia | reflexivity]. }
  split; [reflexivity|]. split; [|split; [|split; [exact Hout|split]]].
  - unfold ThreadedRasterizer.images_done. rewrite Hfirst. reflexivity.
  - intros index Hindex. unfold ThreadedRasterizer.images_done. rewrite Hfirst.
    unfold ThreadedRasterizer.get. cbn [fst ThreadedRasterizer.images ThreadedRasterizer.black].
    destruct (Z.leb_spec 0 index); [|lia].
    destruct (Z.ltb_spec index (Z.of_nat (length images2))); [|lia].
    cbn [andb]. unfold getitem. rewrite py_index_inside by lia. reflexivity.
  - apply Hout. lia.
  - apply Hout. lia.
Qed.

End Facade.

(** A set of two pages stored over the initial state. *)
Lemma get_after_publish_witness :
  ThreadedRasterizer.get 1
    (ThreadedRasterizer.images_done
       [Some (Rasterizer.Page 1 (None, Some 600)); Some (Rasterizer.Page 2 (None, Some 600))]
       ThreadedRasterizer.init).1
  = Some (Rasterizer.Page 2 (None, Some 600))
  /\ ThreadedRasterizer.get 2
       (ThreadedRasterizer.images_done
          [Some (Rasterizer.Page 1 (None, Some 600)); Some (Rasterizer.Page 2 (None, Some 600))]
          ThreadedRasterizer.init).1
     = Some (Rasterizer.Point (replicate (256 * 3) 0) (Rasterizer.Page 1 (None, Some 600))).
Proof.
  destruct (get_after_publish
              [Some (Rasterizer.Page 1 (None, Some 600)); Some (Rasterizer.Page 2 (None, Some 600))]
              (Rasterizer.Page 1 (None, Some 600)) ThreadedRasterizer.init eq_refl)
    as (_ & _ & Hin & Hout & _).
  split.
  - exact (Hin 1 ltac:(cbn; lia)).
  - exact (Hout 2 ltac:(cbn; lia)).
Defined.

(** ** Where the worker stops *)

Section WorkerStops.
Context {F : PyFloat}.
Import Rasterizer.

(** Inside the main loop the sentinel ends the worker at the drain that
    meets it, whatever sizes were queued before it and whatever follows. *)
Lemma drain_sentinel (aspect : num) (sizes later : list item) :
  forall self : worker,
    Forall valid_size sizes ->
    drain aspect (sizes ++ None :: later) self = Returned.
Proof.
  induction sizes as [|it sizes IH]; intros self Hvalid; [reflexivity|].
  apply Forall_cons in Hvalid as [Hit Hrest].
  destruct (rasterargs_valid it aspect Hit) as [size Hsize].
  destruct Hit as (w & h & -> & _).
  cbn [app drain]. rewrite Hsize. cbn [mbind outcome_bind]. apply IH. exact Hrest.
Qed.

(** C8, the failing case.  When the sentinel is the first item the worker
    receives, it is handed to [_winsize2rasterargs] before any check: the
    worker raises TypeError and makes no callback, for every page limit,
    document and later queue content.  It does not return. *)
Theorem sentinel_first_raises (pagelimit : Z) (doc : document) (schedule : list (list item)) :
  _rasterize_worker pagelimit doc None schedule = ([], Raised TypeError).
Proof. reflexivity. Qed.

(** C10, the failing case.  With a page limit of 5 and a document of 10
    pages the first decoder call asks for pages 1 to 32 and gets 10 images;
    storing the sixth raises IndexError, for every first size of non-zero
    height and every queue content. *)
Theorem store_past_pagelimit_raises (aspect : num) (width height : Z)
    (schedule : list (list item)) :
  height <> 0 ->
  _rasterize_worker 5 {| doc_pages := 10; doc_aspect := aspect |} (Some (width, height))
    ([] :: schedule)
  = ([], Raised IndexError).
Proof.
  intros Hh. unfold _rasterize_worker, start, _winsize2rasterargs. cbn [doc_aspect].
  destruct (Z.eqb_spec height 0); [contradiction|].
  destruct (fge (fdiv (of_int width) (of_int height)) aspect); reflexivity.
Qed.

End WorkerStops.

(** A 10-page A4 document, a page limit of 5, a window of 800 x 600. *)
Lemma store_past_pagelimit_raises_witness :
  Rasterizer._rasterize_worker (F := Binary64) 5 (a4_document 10) (Some (800, 600)) [[]]
  = ([], Raised IndexError).
Proof.
  exact (store_past_pagelimit_raises (F := Binary64) (595 / 842)%float 800 600 []
           ltac:(discriminate)).
Defined.

(** * Further properties of the timer and the cursor *)

Section TimerFacts.
Context {F : PyFloat}.

(** The loop only counts up, and it stops on a stopwatch that is not above
    the interval. *)
Lemma countdown_loop_exit (fuel : nat) :
  forall (fires : Z) (sw : num) (n : Z) (sw' : num),
    Repeater.countdown_loop fuel fires sw = Some (n, sw') ->
    fires <= n /\ fgt sw' Repeater.REPEAT_INTERVAL = false.
Proof.
  induction fuel as [|fuel IH]; intros fires sw n sw' Hrun; cbn [Repeater.countdown_loop] in Hrun;
    destruct (fgt sw Repeater.REPEAT_INTERVAL) eqn:E; try discriminate.
  - injection Hrun as <- <-. split; [lia | exact E].
  - destruct (IH _ _ _ _ Hrun) as [Hle Hexit]. split; [lia | exact Hexit].
  - injection Hrun as <- <-. split; [lia | exact E].
Qed.

Lemma _countdown_exit (fuel : nat) (self self' : Repeater.t) (n : Z) :
  Repeater._countdown fuel self = Some (n, self') ->
  0 <= n /\ Repeater.state self' = Repeater.state self
  /\ fgt (Repeater.stopwatch self') Repeater.REPEAT_INTERVAL = false.
Proof.
  unfold Repeater._countdown. intros Hrun.
  destruct (Repeater.countdown_loop fuel 0 (Repeater.stopwatch self)) as [[m sw']|] eqn:E;
    [|discriminate].
  cbn [mbind option_bind] in Hrun. injection Hrun as <- <-.
  destruct (countdown_loop_exit _ _ _ _ _ E) as [Hle Hexit]. repeat split; assumption.
Qed.

(** [Repeater.tick] never returns a negative count.  A release returns 0 and
    leaves the timer [UP], from every state; a press from [UP] returns
    exactly 1, whatever [dt], and starts the stopwatch at [dt]; a held tick
    leaves the timer in [HOLD] or [FIRE], and in [FIRE] with a stopwatch that
    is not above the repeat interval.  In every arithmetic. *)
Theorem Repeater_tick_counts (fuel : nat) (dt : num) (is_down : bool)
    (self self' : Repeater.t) (n : Z) :
  Repeater.tick fuel dt is_down self = Some (n, self') ->
  0 <= n
  /\ (is_down = false -> n = 0 /\ Repeater.state self' = Repeater.UP)
  /\ (is_down = true -> Repeater.state self = Repeater.UP ->
      n = 1 /\ Repeater.state self' = Repeater.HOLD /\ Repeater.stopwatch self' = dt)
  /\ (is_down = true -> Repeater.state self' <> Repeater.UP)
  /\ (Repeater.state self' = Repeater.FIRE ->
      fgt (Repeater.stopwatch self') Repeater.REPEAT_INTERVAL = false).
Proof.
  unfold Repeater.tick. intros Hrun. destruct is_down; cbn [negb] in Hrun.
  - destruct (Repeater.state self) eqn:Hst.
    + injection Hrun as <- <-. cbn. repeat split; try congruence; try lia; try discriminate.
    + destruct (flt _ _).
      * injection Hrun as <- <-. cbn. repeat split; try congruence; try lia; try discriminate.
      * destruct (Repeater._countdown fuel _) as [[m fired]|] eqn:E; [|discriminate].
        cbn [mbind option_bind] in Hrun. injection Hrun as <- <-.
        destruct (_countdown_exit _ _ _ _ E) as (Hm & Hfired & Hexit). cbn in Hfired.
        repeat split; try congruence; try lia; try (intros _; exact Hexit).
    + destruct (_countdown_exit _ _ _ _ Hrun) as (Hm & Hfired & Hexit). cbn in Hfired.
      repeat split; try congruence; try lia; try (intros _; exact Hexit).
  - injection Hrun as <- <-. cbn. repeat split; try congruence; try lia.
Qed.

(** A release followed by a press fires 0 and then 1, and restarts the
    stopwatch at the press's interval, whatever state and stopwatch the timer
    had and without running the loop. *)
Theorem Repeater_release_then_press (fuel : nat) (dt1 dt2 : num) (self : Repeater.t) :
  Repeater.ticks fuel [(dt1, false); (dt2, true)] self
  = Some ([0; 1], {| Repeater.state := Repeater.HOLD; Repeater.stopwatch := dt2 |}).
Proof. reflexivity. Qed.

(** [Cursor.tick] on a cursor within bounds: with reverse released the
    cursor does not decrease, with forward released it does not increase (so
    with both released it stays), the value returned tells exactly whether
    the cursor changed, and [nslides] is kept. *)
Theorem Cursor_tick_direction (fuel : nat) (dt : num) (reverse forward : bool)
    (self self' : Cursor.t) (changed : bool) :
  Cursor.in_bounds self ->
  Cursor.tick fuel dt reverse forward self = Some (changed, self') ->
  (reverse = false -> Cursor.cursor self <= Cursor.cursor self')
  /\ (forward = false -> Cursor.cursor self' <= Cursor.cursor self)
  /\ (changed = true <-> Cursor.cursor self' <> Cursor.cursor self)
  /\ Cursor.nslides self' = Cursor.nslides self.
Proof.
  unfold Cursor.in_bounds, Cursor.tick. intros Hin Hrun.
  destruct (reverse && forward) eqn:Hboth.
  - injection Hrun as <- <-. apply andb_true_iff in Hboth as [-> ->].
    repeat split; try discriminate; try congruence.
  - destruct (Repeater.tick fuel dt reverse _) as [[back rev']|] eqn:Hrev; [|discriminate].
    cbn [mbind option_bind] in Hrun.
    destruct (Repeater.tick fuel dt forward _) as [[ahead fwd']|] eqn:Hfwd; [|discriminate].
    cbn [mbind option_bind] in Hrun. injection Hrun as <- <-. cbn [Cursor.cursor Cursor.nslides].
    destruct (Repeater_tick_counts _ _ _ _ _ _ Hrev) as (Hback & Hback0 & _).
    destruct (Repeater_tick_counts _ _ _ _ _ _ Hfwd) as (Hahead & Hahead0 & _).
    split; [|split; [|split; [|reflexivity]]].
    + intros ->. destruct (Hback0 eq_refl) as [-> _]. lia.
    + intros ->. destruct (Hahead0 eq_refl) as [-> _]. lia.
    + rewrite negb_true_iff, Z.eqb_neq. reflexivity.
Qed.

(** A controller created for no slide at all ([nslides <= 0]): any tick
    that is not neutralised by both inputs leaves the cursor at 0, since the
    clamp applies [min] before [max]; 0 is then not below [nslides]. *)
Theorem Cursor_tick_no_slides (fuel : nat) (dt : num) (reverse forward : bool)
    (self self' : Cursor.t) (changed : bool) :
  Cursor.nslides self <= 0 ->
  reverse && forward = false ->
  Cursor.tick fuel dt reverse forward self = Some (changed, self') ->
  Cursor.cursor self' = 0 /\ ~ Cursor.cursor self' < Cursor.nslides self'.
Proof.
  unfold Cursor.tick. intros Hn Hboth Hrun. rewrite Hboth in Hrun.
  destruct (Repeater.tick fuel dt reverse _) as [[back rev']|]; [|discriminate].
  cbn [mbind option_bind] in Hrun.
  destruct (Repeater.tick fuel dt forward _) as [[ahead fwd']|]; [|discriminate].
  cbn [mbind option_bind] in Hrun. injection Hrun as <- <-. cbn [Cursor.cursor Cursor.nslides].
  lia.
Qed.

End TimerFacts.

(** A timer that repeats, ticked 0.25 s with the key down, in binary64. *)
Lemma Repeater_tick_counts_witness :
  0 <= 3
  /\ (true = false -> 3 = 0 /\ Repeater.FIRE = Repeater.UP)
  /\ (true = true -> Repeater.FIRE = Repeater.UP ->
      3 = 1 /\ Repeater.FIRE = Repeater.HOLD
      /\ 0x1.9999999999994p-5%float = 0x1p-2%float)
  /\ (true = true -> Repeater.FIRE <> Repeater.UP)
  /\ (Repeater.FIRE = Repeater.FIRE ->
      fgt (F := Binary64) 0x1.9999999999994p-5%float Repeater.REPEAT_INTERVAL = false).
Proof.
  apply (Repeater_tick_counts (F := Binary64) 4 0x1p-2%float true
           (Repeater.mk (F := Binary64) Repeater.FIRE 0x1.999999999999ap-4%float)
           (Repeater.mk (F := Binary64) Repeater.FIRE 0x1.9999999999994p-5%float) 3).
  vm_compute. reflexivity.
Defined.

(** The cursor on slide 1 of 3, forward pressed for 0.05 s. *)
Lemma Cursor_tick_direction_witness :
  (false = false -> 1 <= 2)
  /\ (true = false -> 2 <= 1)
  /\ (true = true <-> 2 <> 1)
  /\ 3 = 3.
Proof.
  apply (Cursor_tick_direction (F := Binary64) 1 0x1.999999999999ap-5%float false true
           (Cursor.mk (F := Binary64) Repeater.init Repeater.init 1 3)
           (Cursor.mk (F := Binary64)
              (Repeater.mk (F := Binary64) Repeater.UP (-0x1.d1a94a2p+39)%float)
              (Repeater.mk (F := Binary64) Repeater.HOLD 0x1.999999999999ap-5%float) 2 3)
           true).
  - unfold Cursor.in_bounds. cbn. lia.
  - vm_compute. reflexivity.
Defined.

(** A controller for zero slides, reverse pressed. *)
Lemma Cursor_tick_no_slides_witness :
  0 = 0 /\ ~ 0 < 0.
Proof.
  apply (Cursor_tick_no_slides (F := Binary64) 1 0x1.999999999999ap-5%float true false
           (Cursor.init 0)
           (Cursor.mk (F := Binary64)
              (Repeater.mk (F := Binary64) Repeater.HOLD 0x1.999999999999ap-5%float)
              (Repeater.mk (F := Binary64) Repeater.UP (-0x1.d1a94a2p+39)%float) 0 0)
           false).
  - cbn. lia.
  - reflexivity.
  - vm_compute. reflexivity.
Defined.

(** * Further properties of the rasterizer *)

Section RasterArgs.
Local Open Scope Q_scope.
Import Rasterizer.

(** [_winsize2rasterargs] in exact arithmetic, for a window of positive
    height: when the window is at least as wide as the page, relative to
    its height ([width >= aspect * height]), the height is kept and the
    width left to the decoder; otherwise the width is kept.  Exactly one
    dimension is passed on.  A height of 0 raises ZeroDivisionError and
    [None] raises TypeError. *)
Theorem _winsize2rasterargs_fits (width height : Z) (aspect : Q) :
  (0 < height)%Z ->
  (aspect * inject_Z height <= inject_Z width ->
   _winsize2rasterargs (F := Exact) (Some (width, height)) aspect
   = Normal (None, Some height))
  /\ (inject_Z width < aspect * inject_Z height ->
      _winsize2rasterargs (F := Exact) (Some (width, height)) aspect
      = Normal (Some width, None))
  /\ _winsize2rasterargs (F := Exact) (Some (width, 0%Z)) aspect = Raised ZeroDivisionError
  /\ _winsize2rasterargs (F := Exact) None aspect = Raised TypeError.
Proof.
  intros Hh.
  assert (Hpos : 0 < inject_Z height).
  { change 0 with (inject_Z 0). rewrite <- Zlt_Qlt. exact Hh. }
  unfold _winsize2rasterargs. destruct (Z.eqb_spec height 0); [lia|].
  change (fge (F := Exact) (@fdiv Exact (@of_int Exact width) (@of_int Exact height)) aspect)
    with (Qle_bool aspect (inject_Z width / inject_Z height)).
  split; [|split; [|split; reflexivity]].
  - intros Hwide.
    assert (Hle : aspect <= inject_Z width / inject_Z height)
      by (apply Qle_shift_div_l; assumption).
    apply Qle_bool_iff in Hle. rewrite Hle. reflexivity.
  - intros Hnarrow.
    assert (Hlt : inject_Z width / inject_Z height < aspect)
      by (apply Qlt_shift_div_r; assumption).
    destruct (Qle_bool aspect (inject_Z width / inject_Z height)) eqn:E; [|reflexivity].
    apply Qle_bool_iff in E. exfalso. lra.
Qed.

End RasterArgs.

(** An A4 page (595 x 842) in a window of 800 x 600: the window is the
    wider, the height is kept. *)
Lemma _winsize2rasterargs_fits_witness :
  Rasterizer._winsize2rasterargs (F := Exact) (Some (800, 600)) (595 # 842)
  = Normal (None, Some 600).
Proof.
  apply (proj1 (_winsize2rasterargs_fits 800 600 (595 # 842) ltac:(lia))).
  apply Qle_bool_iff. vm_compute. reflexivity.
Defined.

Section WorkerEdges.
Context {F : PyFloat}.
Import Rasterizer.

Lemma drain_page (aspect : num) (items : list item) :
  forall self self' : worker,
    drain aspect items self = Normal self' ->
    page self' = page self \/ page self' = 1.
Proof.
  induction items as [|[ws|] items IH]; intros self self' Hrun; cbn [drain] in Hrun.
  - injection Hrun as <-. left. reflexivity.
  - destruct (_winsize2rasterargs (Some ws) aspect) as [size| |e]; cbn in Hrun;
      [|discriminate..].
    destruct (IH _ _ Hrun) as [H|H]; right; exact H.
  - discriminate.
Qed.

Lemma short_iteration (pagelimit : Z) (doc : document) (items : list item) (self : worker) :
  0 <= doc_pages doc < pagelimit ->
  worker_inv pagelimit (doc_aspect doc) self ->
  page self <= doc_pages doc + 1 ->
  (iteration pagelimit doc items self).1 = []
  /\ match (iteration pagelimit doc items self).2 with
     | Normal self' =>
         worker_inv pagelimit (doc_aspect doc) self' /\ page self' <= doc_pages doc + 1
     | _ => True
     end.
Proof.
  intros Hdoc Hinv Hpage.
  pose proof (iteration_inv pagelimit doc items self Hinv) as [_ Hnext].
  unfold iteration in *.
  pose proof (drain_inv pagelimit (doc_aspect doc) items self Hinv) as Hmid.
  pose proof (drain_page (doc_aspect doc) items self) as Hmidpage.
  destruct (drain (doc_aspect doc) items self) as [mid| |e]; [|split; [reflexivity|exact I]..].
  specialize (Hmidpage mid eq_refl).
  destruct Hmid as (_ & Hp1 & _ & Hstate).
  destruct (Z.eqb_spec (page mid) (pagelimit + 1)) as [Hdone|Hmore]; [lia|].
  cbn [fst snd] in *. split; [reflexivity|].
  destruct Hstate as [Hprefix|[Hidle _]]; [|contradiction].
  unfold convert_from_path in *. rewrite Z.max_l in * by lia.
  pose proof (store_chunk_range _ mid (Z.min (page mid + CHUNK - 1) (doc_pages doc))
                eq_refl Hp1 Hprefix) as Hstore.
  destruct (store_chunk _ mid) as [self'| |e]; [|exact I..].
  split; [exact Hnext|]. destruct Hstore as (Hp' & _). lia.
Qed.

(** A document with fewer pages than [pagelimit]: the worker never makes a
    callback, whatever its first item and whatever is queued later.  The
    decoder runs out of pages before [page] reaches [pagelimit + 1]. *)
Theorem short_document_never_published (pagelimit : Z) (doc : document) (first : item)
    (schedule : list (list item)) :
  0 <= doc_pages doc < pagelimit ->
  (_rasterize_worker pagelimit doc first schedule).1 = [].
Proof.
  intros Hdoc. unfold _rasterize_worker.
  destruct (start pagelimit doc first) as [self| |e] eqn:Hstart; [|reflexivity..].
  pose proof (start_inv _ _ _ _ Hstart) as Hinv.
  assert (Hpage : page self <= doc_pages doc + 1).
  { unfold start in Hstart.
    destruct (_winsize2rasterargs first (doc_aspect doc)); cbn in Hstart; [|discriminate..].
    injection Hstart as <-. cbn. lia. }
  clear Hstart. revert self Hinv Hpage.
  induction schedule as [|items rest IH]; intros self Hinv Hpage; [reflexivity|].
  cbn [loop].
  destruct (short_iteration pagelimit doc items self Hdoc Hinv Hpage) as [Hcalls Hnext].
  destruct (iteration pagelimit doc items self) as [calls [next| |e]]; cbn [fst snd] in *;
    [|exact Hcalls..].
  destruct Hnext as [Hinv' Hpage']. specialize (IH next Hinv' Hpage').
  destruct (loop pagelimit doc rest next) as [calls' final]. cbn [fst] in *.
  rewrite Hcalls, IH. reflexivity.
Qed.

Lemma queue_of_sizes (sizes : list (Z * Z)) (queue : list item) :
  foldl (fun q '(w, h) => ThreadedRasterizer.push_resize w h q) queue sizes
  = queue ++ map Some sizes.
Proof.
  revert queue. induction sizes as [|[w h] sizes IH]; intros queue; cbn [foldl map].
  - rewrite app_nil_r. reflexivity.
  - rewrite IH. unfold ThreadedRasterizer.push_resize. rewrite <- app_assoc. reflexivity.
Qed.

(** Inside the main loop a shutdown is observed at the next drain: when the
    queue holds resizes of non-zero height, pushed by [push_resize], and then
    the sentinel of [shutdown], the worker returns at that drain, adopting
    none of the sizes with a render and making no further callback,
    whatever is queued afterwards. *)
Theorem shutdown_stops_loop (pagelimit : Z) (doc : document) (first : item)
    (schedule rest : list (list item)) (calls : list published) (self : worker)
    (sizes : list (Z * Z)) :
  _rasterize_worker pagelimit doc first schedule = (calls, Normal self) ->
  Forall (fun size => size.2 <> 0) sizes ->
  _rasterize_worker pagelimit doc first
    (schedule
     ++ ThreadedRasterizer.shutdown
          (foldl (fun q '(w, h) => ThreadedRasterizer.push_resize w h q) [] sizes)
        :: rest)
  = (calls, Returned).
Proof.
  unfold _rasterize_worker. intros Hrun Hsizes.
  destruct (start pagelimit doc first) as [self0| |e]; [|discriminate..].
  rewrite loop_app, Hrun. cbn [loop]. unfold iteration.
  rewrite queue_of_sizes. unfold ThreadedRasterizer.shutdown. cbn [app].
  rewrite drain_sentinel; [rewrite app_nil_r; reflexivity|].
  apply Forall_fmap. eapply Forall_impl; [exact Hsizes|].
  intros [w h] Hh. exists w, h. split; [reflexivity | exact Hh].
Qed.

(** A resize to a height of 0 ends the worker with ZeroDivisionError: as
    the first size, before any pass, and inside the main loop at the drain
    that meets it behind sizes of non-zero height, without a further
    callback. *)
Theorem zero_height_raises (pagelimit : Z) (doc : document) (first : item) (width : Z)
    (schedule rest : list (list item)) (calls : list published) (self : worker)
    (sizes later : list item) :
  _rasterize_worker pagelimit doc first schedule = (calls, Normal self) ->
  Forall valid_size sizes ->
  _rasterize_worker pagelimit doc (Some (width, 0)) rest = ([], Raised ZeroDivisionError)
  /\ _rasterize_worker pagelimit doc first
       (schedule ++ (sizes ++ Some (width, 0) :: later) :: rest)
     = (calls, Raised ZeroDivisionError).
Proof.
  unfold _rasterize_worker. intros Hrun Hsizes. split; [reflexivity|].
  destruct (start pagelimit doc first) as [self0| |e]; [|discriminate..].
  rewrite loop_app, Hrun. cbn [loop]. unfold iteration.
  assert (Hdrain : forall s, drain (doc_aspect doc) (sizes ++ Some (width, 0) :: later) s
                             = Raised ZeroDivisionError).
  { clear -Hsizes. induction sizes as [|it sizes IH]; intros s; [reflexivity|].
    apply Forall_cons in Hsizes as [Hit Hrest].
    destruct (rasterargs_valid it (doc_aspect doc) Hit) as [size Hsize].
    destruct Hit as (w & h & -> & _).
    cbn [app drain]. rewrite Hsize. cbn [mbind outcome_bind]. apply IH. exact Hrest. }
  rewrite Hdrain, app_nil_r. reflexivity.
Qed.

(** The worker and the facade together: every image set the worker
    publishes is stored by [images_done] without an exception, and from then
    on [get] returns page [index + 1] at the published size for every index
    of a slide, and the blank of page 1 for every other index. *)
Theorem published_set_served (pagelimit : Z) (doc : document) (first : item)
    (schedule : list (list item)) (call : published) (facade : ThreadedRasterizer.t) :
  call ∈ (_rasterize_worker pagelimit doc first schedule).1 ->
  exists size : image_size,
    _winsize2rasterargs (pub_window_size call) (doc_aspect doc) = Normal size
    /\ (ThreadedRasterizer.images_done (pub_images call) facade).2 = None
    /\ (forall index : Z,
          0 <= index < pagelimit ->
          ThreadedRasterizer.get index
            (ThreadedRasterizer.images_done (pub_images call) facade).1
          = Some (Page (index + 1) size))
    /\ (forall index : Z,
          index < 0 \/ pagelimit <= index ->
          ThreadedRasterizer.get index
            (ThreadedRasterizer.images_done (pub_images call) facade).1
          = Some (Point (replicate (256 * 3) 0) (Page 1 size))).
Proof.
  intros Hin.
  destruct (published_sets_complete pagelimit doc first schedule call Hin)
    as (Hlen & Hpl & size & Hsize & Hpages).
  assert (Hfirst : getitem (pub_images call) 0 = Some (Some (Page 1 size))).
  { unfold getitem. rewrite py_index_inside by lia. cbn [mbind option_bind].
    exact (Hpages 0%nat ltac:(lia)). }
  destruct (get_after_publish (pub_images call) (Page 1 size) facade Hfirst)
    as (_ & Hok & Hinside & Houtside & _).
  exists size. split; [exact Hsize|]. split; [exact Hok|]. split.
  - intros index Hindex. rewrite Hinside by lia.
    rewrite (Hpages (Z.to_nat index)) by lia. cbn. do 2 f_equal. lia.
  - intros index Hindex. apply Houtside. lia.
Qed.

(** The general form of the overrun.  When the document has more pages than
    [pagelimit] and [pagelimit] is not a multiple of the chunk size 32, the
    decoder call that reaches [pagelimit] returns pages past it: with nothing
    queued after a first size of non-zero height, the worker raises
    IndexError on its [chunks pagelimit]-th pass, having made no callback. *)
Lemma overrun_loop (pagelimit : Z) (doc : document) (n : nat) :
  forall (self : worker) (j : Z),
    pagelimit < doc_pages doc ->
    pagelimit mod 32 <> 0 ->
    0 <= j -> 32 * j < pagelimit ->
    page self = 32 * j + 1 ->
    length (images self) = Z.to_nat pagelimit ->
    rendered_prefix self ->
    chunks (pagelimit - 32 * j) <= Z.of_nat n ->
    loop pagelimit doc (replicate n []) self = ([], Raised IndexError).
Proof.
  induction n as [|n IH]; intros self j Hdoc Hmod Hj Hbelow Hpage Hlen Hprefix Hn.
  - exfalso. rewrite (chunks_step (pagelimit - 32 * j)) in Hn by lia.
    pose proof (chunks_nonneg (pagelimit - 32 * j - Z.min 32 (pagelimit - 32 * j))
                  ltac:(lia)). lia.
  - cbn [replicate loop]. unfold iteration. cbn [drain].
    destruct (Z.eqb_spec (page self) (pagelimit + 1)) as [Hdone|_]; [lia|].
    unfold convert_from_path. rewrite Z.max_l by lia.
    pose proof (store_chunk_range _ self (Z.min (page self + CHUNK - 1) (doc_pages doc))
                  eq_refl ltac:(lia) Hprefix) as Hstore.
    unfold CHUNK in *.
    destruct (store_chunk _ self) as [next| |e]; [|contradiction|].
    + destruct Hstore as (Hp' & Hlen' & _ & _ & Hpre & Hlast).
      assert (Hfit : 32 * (j + 1) < pagelimit).
      { destruct (Z.lt_trichotomy (32 * (j + 1)) pagelimit) as [H|[H|H]]; [exact H| |lia].
        exfalso. apply Hmod. rewrite <- H, Z.mul_comm. apply Z.mod_mul. lia. }
      rewrite (IH next (j + 1)); [reflexivity|exact Hdoc|exact Hmod|lia|exact Hfit|lia|lia
                                  |exact Hpre|].
      rewrite (chunks_step (pagelimit - 32 * j)) in Hn by lia.
      replace (pagelimit - 32 * (j + 1))
        with (pagelimit - 32 * j - Z.min 32 (pagelimit - 32 * j)) by lia. lia.
    + destruct Hstore as [-> _]. reflexivity.
Qed.

Theorem overrun_raises (pagelimit : Z) (doc : document) (width height : Z) (n : nat) :
  1 <= pagelimit < doc_pages doc ->
  pagelimit mod 32 <> 0 ->
  height <> 0 ->
  chunks pagelimit <= Z.of_nat n ->
  _rasterize_worker pagelimit doc (Some (width, height)) (replicate n [])
  = ([], Raised IndexError).
Proof.
  intros Hpl Hmod Hh Hn. unfold _rasterize_worker.
  destruct (start pagelimit doc (Some (width, height))) as [self| |e] eqn:Hstart.
  2,3: exfalso; unfold start in Hstart;
       destruct (rasterargs_valid (Some (width, height)) (doc_aspect doc)) as [size Hsize];
       [exists width, height; split; [reflexivity | exact Hh]
       | rewrite Hsize in Hstart; discriminate].
  pose proof (start_inv _ _ _ _ Hstart) as (Hlen & _ & _ & _).
  assert (Hpage : page self = 32 * 0 + 1).
  { unfold start in Hstart.
    destruct (_winsize2rasterargs (Some (width, height)) (doc_aspect doc)); cbn in Hstart;
      [|discriminate..].
    injection Hstart as <-. reflexivity. }
  apply (overrun_loop pagelimit doc n self 0); try lia; try assumption.
  - intros i Hi. rewrite Hpage in Hi. lia.
  - rewrite Z.mul_0_r, Z.sub_0_r. exact Hn.
Qed.

End WorkerEdges.
